(** * The SPA request handler of [simple_server.py]

    [SPAHandler] subclasses [http.server.SimpleHTTPRequestHandler] and
    overrides [do_GET]: the request target stored in [self.path] is parsed
    with [urllib.parse.urlparse], asset paths go to the inherited [do_GET]
    untouched, and any other path that is neither ["/"] nor present on disk
    is replaced by ["/"] before the inherited [do_GET] runs.

    The development embeds [SPAHandler.do_GET] together with the parts of
    the CPython 3.11 library it runs through: [urlsplit]/[urlparse],
    [posixpath.normpath]/[join]/[dirname], and [translate_path]/[send_head]
    of [SimpleHTTPRequestHandler].

    Strings.  [self.path] is the request line decoded as ISO-8859-1, so
    each of its characters is one of 256 code points: [string] over [ascii]
    is the data as the code has it. *)

From Stdlib Require Import String Ascii List Bool Arith Lia.
Import ListNotations.
Open Scope string_scope.
Open Scope bool_scope.

(** ** Python [str] methods used by the handler and the library *)

Module Str.

(** [c in s] for a one-character [c]. *)
Fixpoint contains (c : ascii) (s : string) : bool :=
  match s with
  | EmptyString => false
  | String a r => Ascii.eqb a c || contains c r
  end.

(** [s.startswith(p)]. *)
Definition startswith (s p : string) : bool := String.prefix p s.

(** [s.endswith(suf)]: the last [len(suf)] characters of [s] are [suf]. *)
Definition endswith (s suf : string) : bool :=
  (String.length suf <=? String.length s)%nat &&
  String.eqb
    (String.substring (String.length s - String.length suf)
                      (String.length suf) s)
    suf.

(** [s.endswith(t)] for a tuple [t] of suffixes. *)
Definition endswith_any (s : string) (sufs : list string) : bool :=
  existsb (endswith s) sufs.

(** [s.partition(c)] without the separator: [None] when [c] is absent,
    otherwise the text before and after its first occurrence. *)
Fixpoint partition (c : ascii) (s : string) : option (string * string) :=
  match s with
  | EmptyString => None
  | String a r =>
      if Ascii.eqb a c then Some (EmptyString, r)
      else match partition c r with
           | Some (h, t) => Some (String a h, t)
           | None => None
           end
  end.

(** [s.rpartition(c)] without the separator, on the last occurrence. *)
Fixpoint rpartition (c : ascii) (s : string) : option (string * string) :=
  match s with
  | EmptyString => None
  | String a r =>
      match rpartition c r with
      | Some (h, t) => Some (String a h, t)
      | None => if Ascii.eqb a c then Some (EmptyString, r) else None
      end
  end.

(** [s.split(c, 1)] as the pair (first piece, rest); the rest is empty
    when [c] does not occur.  [split1 c s] with [fst] is [s.split(c,1)[0]]. *)
Definition split1 (c : ascii) (s : string) : string * string :=
  match partition c s with
  | Some ht => ht
  | None => (s, EmptyString)
  end.

(** [s.split(c)]: all the pieces between occurrences of [c]. *)
Fixpoint split (c : ascii) (s : string) : list string :=
  match s with
  | EmptyString => [EmptyString]
  | String a r =>
      if Ascii.eqb a c then EmptyString :: split c r
      else match split c r with
           | w :: ws => String a w :: ws
           | [] => [String a EmptyString]
           end
  end.

(** [c.join(ws)]. *)
Definition join (c : string) (ws : list string) : string :=
  String.concat c ws.

(** [s.lstrip(chars)], the set given by its membership test. *)
Fixpoint lstrip (strip : ascii -> bool) (s : string) : string :=
  match s with
  | EmptyString => EmptyString
  | String a r => if strip a then lstrip strip r else s
  end.

(** [s.rstrip(chars)]. *)
Fixpoint rstrip (strip : ascii -> bool) (s : string) : string :=
  match s with
  | EmptyString => EmptyString
  | String a r =>
      match rstrip strip r with
      | EmptyString => if strip a then EmptyString else String a EmptyString
      | r' => String a r'
      end
  end.

(** [s.replace(c, '')] for a one-character [c]. *)
Fixpoint remove (c : ascii) (s : string) : string :=
  match s with
  | EmptyString => EmptyString
  | String a r => if Ascii.eqb a c then remove c r else String a (remove c r)
  end.

(** Every character of [s] passes [p]. *)
Fixpoint all (p : ascii -> bool) (s : string) : bool :=
  match s with
  | EmptyString => true
  | String a r => p a && all p r
  end.

Definition code (a : ascii) : nat := nat_of_ascii a.

Definition between (lo hi : nat) (a : ascii) : bool :=
  (lo <=? code a)%nat && (code a <=? hi)%nat.

Definition is_upper (a : ascii) : bool := between 65 90 a.
Definition is_lower (a : ascii) : bool := between 97 122 a.
Definition is_digit (a : ascii) : bool := between 48 57 a.

(** [c.isascii() and c.isalpha()]. *)
Definition is_ascii_alpha (a : ascii) : bool := is_upper a || is_lower a.

(** [c.isspace()] on the 256 code points of ISO-8859-1: TAB..CR, FS..US,
    space, NEL and NBSP. *)
Definition isspace (a : ascii) : bool :=
  between 9 13 a || between 28 32 a ||
  (code a =? 133)%nat || (code a =? 160)%nat.

(** [s.lower()] on ASCII letters. *)
Definition lower_char (a : ascii) : ascii :=
  if is_upper a then ascii_of_nat (code a + 32) else a.

Fixpoint lower (s : string) : string :=
  match s with
  | EmptyString => EmptyString
  | String a r => String (lower_char a) (lower r)
  end.

End Str.

(** ** [urllib.parse]: [urlsplit], [urlparse], [unquote] *)

Module UrlParse.

Record ParseResult := {
  scheme : string;
  netloc : string;
  path : string;
  params : string;
  query : string;
  fragment : string
}.

Definition uses_params : list string :=
  [EmptyString; "ftp"; "hdl"; "prospero"; "http"; "imap"; "https"; "shttp"; "rtsp";
   "rtspu"; "sip"; "sips"; "mms"; "sftp"; "tel"].

(** Membership in [scheme_chars]: letters, digits and [+-.]. *)
Definition scheme_char (a : ascii) : bool :=
  Str.is_lower a || Str.is_upper a || Str.is_digit a ||
  Ascii.eqb a "+" || Ascii.eqb a "-" || Ascii.eqb a ".".

(** Membership in [_WHATWG_C0_CONTROL_OR_SPACE]: code points 0 to 32. *)
Definition c0_control_or_space (a : ascii) : bool := (Str.code a <=? 32)%nat.

(** The loop over [_UNSAFE_URL_BYTES_TO_REMOVE] = TAB, CR, LF. *)
Definition remove_unsafe (url : string) : string :=
  Str.remove "010" (Str.remove "013" (Str.remove "009" url)).

(** The scheme test of [urlsplit]: [i = url.find(':')], [i > 0], the first
    character an ASCII letter and [url[:i]] made of scheme characters.
    Returns the lower-cased scheme and [url[i+1:]]. *)
Definition split_scheme (url : string) : string * string :=
  match Str.partition ":" url with
  | Some (String a h, rest) =>
      if Str.is_ascii_alpha a && Str.all scheme_char (String a h)
      then (Str.lower (String a h), rest)
      else (EmptyString, url)
  | _ => (EmptyString, url)
  end.

(** A character of ["/?#"], the delimiters that end the netloc. *)
Definition netloc_delim (a : ascii) : bool :=
  Ascii.eqb a "/" || Ascii.eqb a "?" || Ascii.eqb a "#".

(** [_splitnetloc(url, 0)] on [url[2:]]: the text up to the first
    delimiter, and the rest from that delimiter on. *)
Fixpoint splitnetloc (url : string) : string * string :=
  match url with
  | EmptyString => (EmptyString, EmptyString)
  | String a r =>
      if netloc_delim a then (EmptyString, url)
      else let (n, rest) := splitnetloc r in (String a n, rest)
  end.

(** [_splitparams]: the [;params] of the last path segment are cut off.
    [urlparse] calls it only when [;] occurs in [url]. *)
Definition splitparams (url : string) : string * string :=
  match Str.rpartition "/" url with
  | Some (dir, segment) =>
      match Str.partition ";" segment with
      | Some (name, prm) => (dir ++ "/" ++ name, prm)
      | None => (url, EmptyString)
      end
  | None =>
      match Str.partition ";" url with
      | Some (name, prm) => (name, prm)
      | None => (url, EmptyString)
      end
  end.

Definition hex_value (a : ascii) : option nat :=
  if Str.is_digit a then Some (Str.code a - 48)
  else if Str.between 65 70 a then Some (Str.code a - 55)
  else if Str.between 97 102 a then Some (Str.code a - 87)
  else None.

(** [unquote]: each [%XY] with two hexadecimal digits becomes the character
    with that code; any other [%] stays.  This is the library's result for
    text whose escapes are below [%80].  Escapes from [%80] on the library
    decodes in runs as UTF-8 (to characters beyond these 256, to lone
    surrogates, or to U+FFFD), which 8-bit characters cannot hold: the
    statements below are about paths without such escapes, or hold
    whatever the decoded text is. *)
Fixpoint unquote (s : string) : string :=
  match s with
  | EmptyString => EmptyString
  | String c s' =>
      if Ascii.eqb c "%" then
        match s' with
        | String a (String b r) =>
            match hex_value a, hex_value b with
            | Some x, Some y => String (ascii_of_nat (16 * x + y)) (unquote r)
            | _, _ => String c (unquote s')
            end
        | _ => String c (unquote s')
        end
      else String c (unquote s')
  end.

(** [_check_bracketed_netloc]: [true] when the call returns, [false] when
    it raises [ValueError].  It validates an IP literal through the
    [ipaddress] and [re] modules, which are kept abstract behind this
    interface. *)
Class IpLiteral := { check_bracketed_netloc : string -> bool }.

(** CPython before gh-103848 has no such validation: the call is absent
    and nothing is raised. *)
Definition unchecked_ip_literal : IpLiteral :=
  {| check_bracketed_netloc := fun _ => true |}.

Section Parse.

Context {ip : IpLiteral}.

(** [urlsplit(url)] with the default [scheme=''], [allow_fragments=True];
    [None] stands for [ValueError].  [_checknetloc] never raises on
    ISO-8859-1 text (NFKC normalisation of these 256 code points produces
    none of [/?#@:]) and so leaves no trace here.  The result is the
    5-tuple with [params] still empty. *)
Definition urlsplit (url : string) : option ParseResult :=
  let url := Str.lstrip c0_control_or_space url in
  let url := remove_unsafe url in
  let (scheme, url) := split_scheme url in
  let have_netloc := Str.startswith url "//" in
  let (netloc, url) :=
    if have_netloc then splitnetloc (String.substring 2 (String.length url - 2) url)
    else (EmptyString, url) in
  let lb := Str.contains "[" netloc in
  let rb := Str.contains "]" netloc in
  if have_netloc && ((lb && negb rb) || (rb && negb lb)) then None
  else if have_netloc && lb && rb && negb (check_bracketed_netloc netloc) then None
  else
    let (url, fragment) := Str.split1 "#" url in
    let (url, query) := Str.split1 "?" url in
    Some {| scheme := scheme; netloc := netloc; path := url;
            params := EmptyString; query := query; fragment := fragment |}.

(** [urlparse(url)]. *)
Definition urlparse (url : string) : option ParseResult :=
  match urlsplit url with
  | None => None
  | Some r =>
      if existsb (String.eqb (scheme r)) uses_params && Str.contains ";" (path r)
      then
        let (url, params) := splitparams (path r) in
        Some {| scheme := scheme r; netloc := netloc r; path := url;
                params := params; query := query r; fragment := fragment r |}
      else Some r
  end.

End Parse.

Definition uses_netloc : list string :=
  [EmptyString; "ftp"; "http"; "gopher"; "nntp"; "telnet"; "imap"; "wais";
   "file"; "mms"; "https"; "shttp"; "snews"; "prospero"; "rtsp"; "rtspu";
   "rsync"; "svn"; "svn+ssh"; "sftp"; "nfs"; "git"; "git+ssh"; "ws"; "wss"].

(** [urlunsplit((scheme, netloc, url, query, fragment))]. *)
Definition urlunsplit (scheme netloc url query fragment : string) : string :=
  let url :=
    if negb (String.eqb netloc EmptyString)
       || (negb (String.eqb scheme EmptyString)
           && existsb (String.eqb scheme) uses_netloc
           && negb (Str.startswith url "//"))
    then
      let url :=
        if negb (String.eqb url EmptyString) && negb (Str.startswith url "/")
        then "/" ++ url else url in
      "//" ++ netloc ++ url
    else url in
  let url :=
    if negb (String.eqb scheme EmptyString) then scheme ++ ":" ++ url else url in
  let url :=
    if negb (String.eqb query EmptyString) then url ++ "?" ++ query else url in
  if negb (String.eqb fragment EmptyString) then url ++ "#" ++ fragment else url.

End UrlParse.

(** ** [posixpath] *)

Module PosixPath.

(** [join(a, b)]. *)
Definition join (a b : string) : string :=
  if Str.startswith b "/" then b
  else if String.eqb a EmptyString || Str.endswith a "/" then a ++ b
  else a ++ "/" ++ b.

Definition is_slash (a : ascii) : bool := Ascii.eqb a "/".

(** [dirname(p)]: [p] up to its last slash, trailing slashes removed
    unless the head is made of slashes only. *)
Definition dirname (p : string) : string :=
  match Str.rpartition "/" p with
  | None => EmptyString
  | Some (before, _) =>
      let head := before ++ "/" in
      if negb (Str.all is_slash head) then Str.rstrip is_slash head else head
  end.

(** One turn of the loop of [normpath] over the components. *)
Definition normpath_step (initial_slashes : nat) (new_comps : list string)
    (comp : string) : list string :=
  if String.eqb comp EmptyString || String.eqb comp "." then new_comps
  else if negb (String.eqb comp "..")
          || ((initial_slashes =? 0)%nat && (length new_comps =? 0)%nat)
          || (negb (length new_comps =? 0)%nat
              && String.eqb (last new_comps EmptyString) "..")
       then new_comps ++ [comp]
       else removelast new_comps.

(** [normpath(path)], the Python definition of [posixpath]. *)
Definition normpath (path : string) : string :=
  if String.eqb path EmptyString then "."
  else
    let initial_slashes :=
      if Str.startswith path "/" then
        if Str.startswith path "//" && negb (Str.startswith path "///")
        then 2 else 1
      else 0 in
    let comps := Str.split "/" path in
    let new_comps := fold_left (normpath_step initial_slashes) comps [] in
    let path := Str.join "/" new_comps in
    let path := Str.join EmptyString (repeat "/" initial_slashes) ++ path in
    if String.eqb path EmptyString then "." else path.

End PosixPath.

(** ** The file system seen through [os] and [os.path] *)

Module Os.

Inductive kind := Regular | Directory | Special.

(** What [os.stat] finds at a path: the kind of the file and whether this
    process may open it for reading (a directory: list it). *)
Record node := { node_kind : kind; readable : bool }.

(** The world a request runs in: the [directory] the handler serves (the
    working directory, taken by [SimpleHTTPRequestHandler.__init__]) and
    [stat], the outcome of [os.stat] on every path string the process can
    pass, relative ones resolved against the working directory; [None] is
    [OSError]. *)
Record world := { directory : string; stat : string -> option node }.

(** A path with an embedded NUL never reaches the system: [os.stat] and
    [open] raise [ValueError] on it. *)
Definition embedded_null (p : string) : bool := Str.contains "000" p.

(** [os.path.exists(p)]: [os.stat] with [OSError] and [ValueError] caught. *)
Definition exists_ (w : world) (p : string) : bool :=
  if embedded_null p then false
  else match stat w p with Some _ => true | None => false end.

Definition has_kind (k : kind) (n : node) : bool :=
  match node_kind n, k with
  | Regular, Regular | Directory, Directory | Special, Special => true
  | _, _ => false
  end.

(** [os.path.isdir(p)]. *)
Definition isdir (w : world) (p : string) : bool :=
  if embedded_null p then false
  else match stat w p with Some n => has_kind Directory n | None => false end.

(** [os.path.isfile(p)]. *)
Definition isfile (w : world) (p : string) : bool :=
  if embedded_null p then false
  else match stat w p with Some n => has_kind Regular n | None => false end.

(** [open(p, 'rb')] raises [OSError] ([false]) or does not ([true]): a
    directory cannot be opened.  Called on paths without NUL.  [true]
    does not say that the call returns at once: on a FIFO with no writer
    it waits. *)
Definition can_open (w : world) (p : string) : bool :=
  match stat w p with
  | Some n => negb (has_kind Directory n) && readable n
  | None => false
  end.

(** [os.listdir(p)] returns ([true]) or raises [OSError] ([false]). *)
Definition can_list (w : world) (p : string) : bool :=
  match stat w p with
  | Some n => has_kind Directory n && readable n
  | None => false
  end.

(** The calls that the handler methods modelled below make into the file
    system, in order.  What the library reads besides is not logged: the
    MIME tables behind [guess_type], [os.fstat] on the opened file, and
    [os.path.isdir] and [os.path.islink] on the entries of a listing. *)
Inductive call :=
| Exists (p : string)
| Isdir (p : string)
| Isfile (p : string)
| Open (p : string)
| Listdir (p : string).

Definition is_exists_call (c : call) : bool :=
  match c with Exists _ => true | _ => false end.

(** The calls of [os.path.exists] in a log. *)
Definition existence_checks (log : list call) : list call :=
  filter is_exists_call log.

End Os.

(** ** Handler methods as computations

    A method reads the world, reads and assigns [self.path], calls into the
    file system, and returns or raises. *)

Module Handler.

Inductive exn := ValueError.

Inductive result (A : Type) :=
| Ok (a : A)
| Raise (e : exn).
Arguments Ok {A} a.
Arguments Raise {A} e.

(** [self_path] is the attribute [self.path]; [calls] is the log of file
    system calls made so far, oldest first. *)
Record state := { self_path : string; calls : list Os.call }.

Definition M (A : Type) : Type := Os.world -> state -> result A * state.

Definition ret {A} (a : A) : M A := fun _ s => (Ok a, s).

Definition bind {A B} (m : M A) (k : A -> M B) : M B :=
  fun w s =>
    match m w s with
    | (Ok a, s') => k a w s'
    | (Raise e, s') => (Raise e, s')
    end.

Definition raise {A} (e : exn) : M A := fun _ s => (Raise e, s).

(** Read [self.path]. *)
Definition get_path : M string := fun _ s => (Ok (self_path s), s).

(** [self.path = p]. *)
Definition set_path (p : string) : M unit :=
  fun _ s => (Ok tt, {| self_path := p; calls := calls s |}).

(** Read [self.directory]. *)
Definition get_directory : M string := fun w s => (Ok (Os.directory w), s).

Definition logged {A} (c : Os.call) (f : Os.world -> result A) : M A :=
  fun w s => (f w, {| self_path := self_path s; calls := calls s ++ [c] |}).

Definition os_path_exists (p : string) : M bool :=
  logged (Os.Exists p) (fun w => Ok (Os.exists_ w p)).

Definition os_path_isdir (p : string) : M bool :=
  logged (Os.Isdir p) (fun w => Ok (Os.isdir w p)).

Definition os_path_isfile (p : string) : M bool :=
  logged (Os.Isfile p) (fun w => Ok (Os.isfile w p)).

(** [try: f = open(p, 'rb') except OSError: ...]: whether the file was
    opened; the [ValueError] of a NUL in [p] is not caught. *)
Definition try_open (p : string) : M bool :=
  logged (Os.Open p)
    (fun w => if Os.embedded_null p then Raise ValueError
              else Ok (Os.can_open w p)).

(** [try: os.listdir(p) except OSError: ...]. *)
Definition try_listdir (p : string) : M bool :=
  logged (Os.Listdir p)
    (fun w => if Os.embedded_null p then Raise ValueError
              else Ok (Os.can_list w p)).

(** A library call that returns or raises [ValueError]. *)
Definition or_value_error {A} (o : option A) : M A :=
  match o with
  | Some a => ret a
  | None => raise ValueError
  end.

(** What the handler decides to send.  Bodies are left out, and of the
    headers all but [Location]: a response is its status and the file or
    directory it is made from.  [FileResponse] and [DirectoryListing]
    record that [open] or [os.listdir] returned; see [send_file] and
    [list_directory] for what the library still does after that. *)
Inductive response :=
| MovedPermanently (location : string)   (* 301 with this Location *)
| FileResponse (file : string)           (* the file was opened: 200 or 304 *)
| DirectoryListing (dir : string)        (* the directory was listed: 200 *)
| NotFound                               (* 404 *)
| NotImplemented.                        (* 501 *)

(** A computation that never assigns [self.path] and never calls
    [os.path.exists]. *)
Definition quiet {A} (m : M A) : Prop :=
  forall w s,
    self_path (snd (m w s)) = self_path s /\
    Os.existence_checks (calls (snd (m w s))) = Os.existence_checks (calls s).

End Handler.

Import Handler.

Declare Scope handler_scope.
Delimit Scope handler_scope with handler.
Notation "x <- m ;; k" := (bind m (fun x => k))
  (at level 61, m at next level, right associativity) : handler_scope.
Notation "m ;; k" := (bind m (fun _ => k))
  (at level 61, right associativity) : handler_scope.
Open Scope handler_scope.

(** ** [http.server.SimpleHTTPRequestHandler] *)

Module SimpleHTTPRequestHandler.

Section Methods.

Context {ip : UrlParse.IpLiteral}.

(** The loop of [translate_path] over the words: components that are not
    a simple name are skipped, the others are joined to the path. *)
Definition translate_word (path word : string) : string :=
  if negb (String.eqb (PosixPath.dirname word) EmptyString)
     || String.eqb word "." || String.eqb word ".."
  then path
  else PosixPath.join path word.

(** [translate_path(path)], with [self.directory] passed in. *)
Definition translate_path (directory path : string) : string :=
  let path := fst (Str.split1 "?" path) in
  let path := fst (Str.split1 "#" path) in
  let trailing_slash := Str.endswith (Str.rstrip Str.isspace path) "/" in
  let path := UrlParse.unquote path in
  let path := PosixPath.normpath path in
  let words := Str.split "/" path in
  let words := filter (fun w => negb (String.eqb w EmptyString)) words in
  let path := fold_left translate_word words directory in
  if trailing_slash then path ++ "/" else path.

(** The tail of [send_head] up to [open]: a path ending in a slash is
    answered 404, and so is a file that [open] refuses with [OSError].
    The model stops at the opened file.  Around it the library guesses
    the content type (reading the system's MIME tables on first use) and
    then formats the modification time for [Last-Modified], which raises
    for a time past the year 9999; neither is modelled, and nothing below
    is stated about a request beyond the point where its file is opened. *)
Definition send_file (path : string) : M response :=
  if Str.endswith path "/" then ret NotFound
  else
    opened <- try_open path ;;
    if opened then ret (FileResponse path) else ret NotFound.

(** [list_directory(path)] up to [os.listdir]: 404 when it raises
    [OSError].  The page built from the listing is not modelled: the
    library asks [os.path.isdir] and [os.path.islink] about every entry,
    and titles the page with the unquoted [self.path], whose encoding
    raises for text that is no valid UTF-8; with [self.path == '/'] the
    title is ["/"] and the page is sent. *)
Definition list_directory (path : string) : M response :=
  listed <- try_listdir path ;;
  if listed then ret (DirectoryListing path) else ret NotFound.

(** The [Location] of the redirect: [urlunsplit] of the parts of
    [self.path] with a slash added to the path. *)
Definition redirect_location (parts : UrlParse.ParseResult) : string :=
  UrlParse.urlunsplit (UrlParse.scheme parts) (UrlParse.netloc parts)
    (UrlParse.path parts ++ "/") (UrlParse.query parts)
    (UrlParse.fragment parts).

(** The [for index in ...: ... break] loop of [send_head]: the first index
    page that is a regular file, or [None] when the loop runs to its
    [else]. *)
Fixpoint find_index (path : string) (pages : list string) : M (option string) :=
  match pages with
  | [] => ret None
  | page :: pages' =>
      let index := PosixPath.join path page in
      found <- os_path_isfile index ;;
      if found then ret (Some index) else find_index path pages'
  end.

(** [send_head()]. *)
Definition send_head : M response :=
  self_path <- get_path ;;
  directory <- get_directory ;;
  let path := translate_path directory self_path in
  is_dir <- os_path_isdir path ;;
  if is_dir then
    parts <- or_value_error (UrlParse.urlsplit self_path) ;;
    if negb (Str.endswith (UrlParse.path parts) "/")
    then ret (MovedPermanently (redirect_location parts))
    else
      index <- find_index path ["index.html"; "index.htm"] ;;
      match index with
      | Some index => send_file index
      | None => list_directory path
      end
  else send_file path.

(** [do_GET()]: [send_head] and then the copy of the file to the client. *)
Definition do_GET : M response := send_head.

(** [do_HEAD()]: [send_head] and the file closed at once. *)
Definition do_HEAD : M response := send_head.

End Methods.

End SimpleHTTPRequestHandler.

(** ** [SPAHandler] of [simple_server.py] *)

Module SPAHandler.

Section Methods.

Context {ip : UrlParse.IpLiteral}.

Definition static_extensions : list string :=
  [".js"; ".css"; ".png"; ".jpg"; ".ico"; ".svg"].

(** The test of the first [if] of [do_GET]. *)
Definition is_asset (path : string) : bool :=
  Str.startswith path "/assets/" || Str.endswith_any path static_extensions.

(** Python's [a and b]: [b] is evaluated only when [a] holds. *)
Definition and_then (a : bool) (b : M bool) : M bool :=
  if a then b else ret false.

(** [SPAHandler.do_GET]. *)
Definition do_GET : M response :=
  self_path <- get_path ;;
  parsed_path <- or_value_error (UrlParse.urlparse self_path) ;;
  let path := UrlParse.path parsed_path in
  if is_asset path then SimpleHTTPRequestHandler.do_GET
  else
    missing <- and_then (negb (String.eqb path "/"))
                 (found <- os_path_exists ("." ++ path) ;; ret (negb found)) ;;
    (if missing then set_path "/" else ret tt) ;;
    SimpleHTTPRequestHandler.do_GET.

(** [handle_one_request] after [parse_request] has set [self.command] and
    [self.path]: the method [do_<command>] is looked up on the handler.
    [SPAHandler] defines [do_GET] and inherits [do_HEAD]; no other
    attribute of the class is named [do_...], and the answer is then 501. *)
Definition handle_command (command : string) : M response :=
  if String.eqb command "GET" then do_GET
  else if String.eqb command "HEAD" then SimpleHTTPRequestHandler.do_HEAD
  else ret NotImplemented.

End Methods.

(** A request as [parse_request] leaves it: [self.path] set, nothing
    called yet. *)
Definition request (target : string) : state :=
  {| self_path := target; calls := [] |}.

Section Observations.

Context {ip : UrlParse.IpLiteral}.

(** The local variable [path] of [do_GET]: [urlparse(self.path).path],
    when [urlparse] returns. *)
Definition request_path (target : string) : option string :=
  option_map UrlParse.path (UrlParse.urlparse target).

(** The whole run of [do_GET] on a fresh request. *)
Definition serve (w : Os.world) (target : string) : result response * state :=
  do_GET w (request target).

(** The path the inherited [do_GET] serves: [self.path] as the override
    leaves it. *)
Definition effective_path (w : Os.world) (target : string) : string :=
  self_path (snd (serve w target)).

(** The calls of [os.path.exists] made while the request is served. *)
Definition existence_checks (w : Os.world) (target : string) : list Os.call :=
  Os.existence_checks (calls (snd (serve w target))).

End Observations.

End SPAHandler.

(** ** The request path in the words of the specification

    The specification describes the path the routing works on as the
    decoded path component of the request URL.  [decoded_request_path]
    follows these words, to be compared with [SPAHandler.request_path]. *)

Definition decoded_request_path {ip : UrlParse.IpLiteral} (target : string)
  : option string :=
  option_map UrlParse.unquote (SPAHandler.request_path target).

(** A word of [requestline.split()], which is how [parse_request] gets
    [self.path]: no whitespace in it. *)
Definition is_word (s : string) : bool :=
  Str.all (fun a => negb (Str.isspace a)) s.

(** ** Example worlds *)

Module Worlds.

Definition dir : Os.node := {| Os.node_kind := Os.Directory; Os.readable := true |}.
Definition file : Os.node := {| Os.node_kind := Os.Regular; Os.readable := true |}.

(** A document root at [root] holding [tree], whose entries are named from
    the root (["/index.html"]).  A path reaches an entry through the
    working directory (["./index.html"]) or through the absolute name. *)
Definition mount (root : string) (tree : list (string * Os.node)) : Os.world :=
  {| Os.directory := root;
     Os.stat := fun p =>
       option_map snd
         (find (fun e => String.eqb p ("." ++ fst e) || String.eqb p (root ++ fst e))
               tree) |}.

(** A built application: the fallback document, a bundle, a directory of
    documents and a file whose name has a space. *)
Definition site : Os.world :=
  mount "/srv/app"
    [(EmptyString, dir); ("/", dir); ("/index.html", file);
     ("/assets", dir); ("/assets/app.js", file);
     ("/docs", dir); ("/a b", file)].

(** The same directory before the build: no fallback document. *)
Definition bare : Os.world :=
  mount "/srv/app" [(EmptyString, dir); ("/", dir); ("/docs", dir)].

End Worlds.

(** The six fields of a [ParseResult], in the order of the tuple. *)
Definition fields (r : UrlParse.ParseResult) : list string :=
  [UrlParse.scheme r; UrlParse.netloc r; UrlParse.path r; UrlParse.params r;
   UrlParse.query r; UrlParse.fragment r].

(** ** Shapes of paths *)

(** A relative name none of whose components is [..]: joined to a
    directory, it names something below that directory. *)
Definition confined (rest : string) : Prop :=
  ~ In ".." (Str.split "/" rest).

(** A character with no meaning to [urlparse], [unquote] or [open]: not
    one of [/ % ? # ;], no whitespace, not NUL. *)
Definition plain_char (a : ascii) : bool :=
  negb (Ascii.eqb a "/" || Ascii.eqb a "%" || Ascii.eqb a "?" ||
        Ascii.eqb a "#" || Ascii.eqb a ";" || Ascii.eqb a "000" ||
        Str.isspace a).

(** A plain file name: not empty, not [.] or [..], plain characters. *)
Definition plain_segment (seg : string) : bool :=
  negb (String.eqb seg EmptyString) && negb (String.eqb seg ".") &&
  negb (String.eqb seg "..") && Str.all plain_char seg.

(** The path [/seg1/seg2/...] of a list of segments. *)
Fixpoint path_of (segs : list string) : string :=
  match segs with
  | [] => EmptyString
  | seg :: segs' => "/" ++ seg ++ path_of segs'
  end.

(** A name below the directory [d]: [d] itself, or [d], a slash, and a
    relative name none of whose components is [..]. *)
Definition below (d f : string) : Prop :=
  f = d \/ exists rest, f = d ++ "/" ++ rest /\ confined rest.

(** ** The path component in words

    The amended reading of the request path: the target with its query
    string and fragment cut off, then the parameters of its last segment,
    and nothing decoded. *)

(** The text before the first character that [stop] marks. *)
Fixpoint before (stop : ascii -> bool) (s : string) : string :=
  match s with
  | EmptyString => EmptyString
  | String a r => if stop a then EmptyString else String a (before stop r)
  end.

(** The target up to its first [?] or [#]. *)
Definition without_query (target : string) : string :=
  before (fun a => Ascii.eqb a "?" || Ascii.eqb a "#") target.

(** The path up to the first [;] of its last segment: a [;] that a slash
    still follows is kept. *)
Fixpoint without_params (path : string) : string :=
  match path with
  | EmptyString => EmptyString
  | String a r =>
      if Str.contains "/" r then String a (without_params r)
      else if Ascii.eqb a ";" then EmptyString
      else String a (without_params r)
  end.

(** [p] stands in [t] character for character. *)
Definition verbatim_in (p t : string) : Prop :=
  exists pre post, t = pre ++ p ++ post.

(** * Properties *)

(** ** The library functions on sample inputs

    The values are those CPython 3.11 returns. *)

Example urlparse_origin_form_sample :
  option_map fields
    (UrlParse.urlparse (ip := UrlParse.unchecked_ip_literal)
       "/a/b;x/c;p=1?q=2#f")
  = Some [EmptyString; EmptyString; "/a/b;x/c"; "p=1"; "q=2"; "f"].
Proof. reflexivity. Qed.

Example urlparse_absolute_form_sample :
  option_map fields
    (UrlParse.urlparse (ip := UrlParse.unchecked_ip_literal)
       "HTTP://host:80/p;a?q")
  = Some ["http"; "host:80"; "/p"; "a"; "q"; EmptyString].
Proof. reflexivity. Qed.

Example urlparse_fragment_before_query_sample :
  option_map fields
    (UrlParse.urlparse (ip := UrlParse.unchecked_ip_literal) "/a%20b?x#y?z")
  = Some [EmptyString; EmptyString; "/a%20b"; EmptyString; "x"; "y?z"].
Proof. reflexivity. Qed.

Example urlparse_unbalanced_bracket_sample (ip : UrlParse.IpLiteral) :
  UrlParse.urlparse "http://[::1/p" = None.
Proof. reflexivity. Qed.

Example unquote_sample : UrlParse.unquote "/a%20b%zz%4%41%" = "/a b%zz%4A%".
Proof. reflexivity. Qed.

Example normpath_sample :
  map PosixPath.normpath
    ["/a/../../b/./c//d/"; "//a"; "///a"; "a/../.."; EmptyString; "/"; "/.."]
  = ["/b/c/d"; "//a"; "/a"; ".."; "."; "/"; "/"].
Proof. reflexivity. Qed.

Example translate_path_sample :
  map (SimpleHTTPRequestHandler.translate_path "/srv/app")
    ["/"; "/a/../../b/"; "/a%2Fb/c?x"; "/%2e%2e/x"; "/index.html;x"; "?x"]
  = ["/srv/app/"; "/srv/app/b/"; "/srv/app/a/b/c"; "/srv/app/x";
     "/srv/app/index.html;x"; "/srv/app"].
Proof. reflexivity. Qed.

(** ** The handler on sample requests *)

(** [GET /app.js] with no such file: asset by extension, served as it is,
    404. *)
Example serve_absent_script :
  SPAHandler.serve (ip := UrlParse.unchecked_ip_literal) Worlds.site "/app.js"
  = (Ok NotFound,
     {| self_path := "/app.js";
        calls := [Os.Isdir "/srv/app/app.js"; Os.Open "/srv/app/app.js"] |}).
Proof. reflexivity. Qed.

(** [GET /dashboard/settings] with nothing there: rewritten, and the
    fallback document is opened. *)
Example serve_client_route :
  SPAHandler.serve (ip := UrlParse.unchecked_ip_literal)
    Worlds.site "/dashboard/settings"
  = (Ok (FileResponse "/srv/app/index.html"),
     {| self_path := "/";
        calls := [Os.Exists "./dashboard/settings"; Os.Isdir "/srv/app/";
                  Os.Isfile "/srv/app/index.html";
                  Os.Open "/srv/app/index.html"] |}).
Proof. reflexivity. Qed.

(** [GET /assets/app.js?v=3]: asset by prefix, the query string stays in
    [self.path]. *)
Example serve_bundle :
  SPAHandler.serve (ip := UrlParse.unchecked_ip_literal)
    Worlds.site "/assets/app.js?v=3"
  = (Ok (FileResponse "/srv/app/assets/app.js"),
     {| self_path := "/assets/app.js?v=3";
        calls := [Os.Isdir "/srv/app/assets/app.js";
                  Os.Open "/srv/app/assets/app.js"] |}).
Proof. reflexivity. Qed.

(** [GET /]: no call of [os.path.exists]. *)
Example serve_root :
  SPAHandler.serve (ip := UrlParse.unchecked_ip_literal) Worlds.site "/"
  = (Ok (FileResponse "/srv/app/index.html"),
     {| self_path := "/";
        calls := [Os.Isdir "/srv/app/"; Os.Isfile "/srv/app/index.html";
                  Os.Open "/srv/app/index.html"] |}).
Proof. reflexivity. Qed.

(** [GET /docs] on a directory: kept, and the inherited handler redirects
    to the name with a slash. *)
Example serve_directory :
  SPAHandler.serve (ip := UrlParse.unchecked_ip_literal) Worlds.site "/docs"
  = (Ok (MovedPermanently "/docs/"),
     {| self_path := "/docs";
        calls := [Os.Exists "./docs"; Os.Isdir "/srv/app/docs"] |}).
Proof. reflexivity. Qed.

(** [GET /docs?page=2] on a directory: the query string goes into the
    [Location] of the redirect. *)
Example serve_directory_query :
  fst (SPAHandler.serve (ip := UrlParse.unchecked_ip_literal)
         Worlds.site "/docs?page=2")
  = Ok (MovedPermanently "/docs/?page=2").
Proof. reflexivity. Qed.

(** A target [urlparse] rejects: [do_GET] raises before any call. *)
Example serve_invalid_target (ip : UrlParse.IpLiteral) :
  SPAHandler.serve Worlds.site "http://[/x"
  = (Raise ValueError, SPAHandler.request "http://[/x").
Proof. reflexivity. Qed.

(** ** Strings *)

Lemma append_nil_r (s : string) : s ++ EmptyString = s.
Proof. induction s; simpl; congruence. Qed.

Section StringFacts.

Variable c : ascii.

Lemma contains_app (a b : string) :
  Str.contains c (a ++ b) = Str.contains c a || Str.contains c b.
Proof.
  induction a as [|x a IH]; simpl; [reflexivity|].
  now rewrite IH, orb_assoc.
Qed.

Lemma contains_prefix (a b : string) :
  Str.contains c (a ++ b) = false -> Str.contains c a = false.
Proof.
  rewrite contains_app. now intros [H _]%orb_false_iff.
Qed.

Lemma partition_app (s h t : string) :
  Str.partition c s = Some (h, t) -> s = h ++ String c t.
Proof.
  revert h t. induction s as [|a r IH]; simpl; intros h t H; [discriminate|].
  destruct (Ascii.eqb_spec a c) as [->|Hne].
  - now inversion H.
  - destruct (Str.partition c r) as [[h' t']|]; [|discriminate].
    inversion H; subst. simpl. f_equal. now apply IH.
Qed.

Lemma partition_head_free (s h t : string) :
  Str.partition c s = Some (h, t) -> Str.contains c h = false.
Proof.
  revert h t. induction s as [|a r IH]; simpl; intros h t H; [discriminate|].
  destruct (Ascii.eqb a c) eqn:E.
  - now inversion H.
  - destruct (Str.partition c r) as [[h' t']|]; [|discriminate].
    inversion H; subst. simpl. rewrite E. simpl. eapply IH. reflexivity.
Qed.

Lemma partition_none (s : string) :
  Str.partition c s = None -> Str.contains c s = false.
Proof.
  induction s as [|a r IH]; simpl; [reflexivity|].
  destruct (Ascii.eqb a c); [discriminate|].
  destruct (Str.partition c r) as [[h t]|]; [discriminate|].
  intros _. now apply IH.
Qed.

Lemma rpartition_app (s h t : string) :
  Str.rpartition c s = Some (h, t) -> s = h ++ String c t.
Proof.
  revert h t. induction s as [|a r IH]; simpl; intros h t H; [discriminate|].
  destruct (Str.rpartition c r) as [[h' t']|].
  - inversion H; subst. simpl. f_equal. now apply IH.
  - destruct (Ascii.eqb_spec a c) as [->|Hne]; [|discriminate].
    now inversion H.
Qed.

Lemma split1_prefix (s : string) :
  exists rest, s = fst (Str.split1 c s) ++ rest.
Proof.
  unfold Str.split1. destruct (Str.partition c s) as [[h t]|] eqn:E; simpl.
  - exists (String c t). now apply partition_app.
  - exists EmptyString. now rewrite append_nil_r.
Qed.

Lemma split1_head_free (s : string) :
  Str.contains c (fst (Str.split1 c s)) = false.
Proof.
  unfold Str.split1. destruct (Str.partition c s) as [[h t]|] eqn:E; simpl.
  - eapply partition_head_free; eassumption.
  - now apply partition_none.
Qed.

Lemma remove_absent (s : string) :
  Str.contains c s = false -> Str.remove c s = s.
Proof.
  induction s as [|a r IH]; simpl; [reflexivity|].
  destruct (Ascii.eqb a c); simpl; [discriminate|].
  intros H. now rewrite IH.
Qed.

End StringFacts.

Lemma append_assoc (a b c : string) : (a ++ b) ++ c = a ++ (b ++ c).
Proof. induction a; simpl; congruence. Qed.

Lemma append_cons_nonempty (a : string) (x : ascii) (b : string) :
  String.eqb (a ++ String x b) EmptyString = false.
Proof. destruct a; reflexivity. Qed.

(** The last [length suf] characters of [a ++ suf] are [suf]. *)
Lemma substring_app_suffix (a suf : string) :
  String.substring (String.length a) (String.length suf) (a ++ suf) = suf.
Proof.
  induction a as [|x a IH]; simpl.
  - induction suf as [|y suf IH]; simpl; [reflexivity|]. now rewrite IH.
  - exact IH.
Qed.

Lemma length_app (a b : string) :
  String.length (a ++ b) = String.length a + String.length b.
Proof. induction a; simpl; congruence. Qed.

Lemma endswith_app (a suf : string) : Str.endswith (a ++ suf) suf = true.
Proof.
  unfold Str.endswith. rewrite length_app.
  replace (String.length a + String.length suf - String.length suf)
    with (String.length a) by lia.
  rewrite substring_app_suffix, String.eqb_refl, andb_true_r.
  apply Nat.leb_le. lia.
Qed.

(** Two suffixes of the same length of one string are equal. *)
Lemma endswith_same_length (s p q : string) :
  String.length p = String.length q ->
  Str.endswith s p = true -> Str.endswith s q = true -> p = q.
Proof.
  unfold Str.endswith. intros L [_ Hp%String.eqb_eq]%andb_true_iff
    [_ Hq%String.eqb_eq]%andb_true_iff.
  rewrite L in Hp. congruence.
Qed.

(** ** The inherited handler leaves [self.path] and [os.path.exists] alone *)

Create HintDb quiet.

Lemma quiet_ret {A} (a : A) : quiet (ret a).
Proof. now intros w s. Qed.

Lemma quiet_raise {A} (e : exn) : quiet (@raise A e).
Proof. now intros w s. Qed.

Lemma quiet_bind {A B} (m : M A) (k : A -> M B) :
  quiet m -> (forall a, quiet (k a)) -> quiet (bind m k).
Proof.
  intros Hm Hk w s. unfold bind. specialize (Hm w s).
  destruct (m w s) as [[a|e] s']; simpl in *.
  - destruct Hm as [P0 C0]. destruct (Hk a w s') as [P C]. split; congruence.
  - exact Hm.
Qed.

Lemma quiet_get_path : quiet get_path.
Proof. now intros w s. Qed.

Lemma quiet_get_directory : quiet get_directory.
Proof. now intros w s. Qed.

Lemma quiet_logged {A} (c : Os.call) (f : Os.world -> result A) :
  Os.is_exists_call c = false -> quiet (logged c f).
Proof.
  intros Hc w s. unfold logged, Os.existence_checks. simpl. split; [reflexivity|].
  rewrite filter_app. simpl. rewrite Hc. apply app_nil_r.
Qed.

Lemma quiet_or_value_error {A} (o : option A) : quiet (or_value_error o).
Proof. destruct o; [apply quiet_ret | apply quiet_raise]. Qed.

#[local] Hint Resolve quiet_ret quiet_raise quiet_get_path quiet_get_directory
  quiet_or_value_error : quiet.
#[local] Hint Extern 1 (quiet (os_path_isdir _)) => now apply quiet_logged : quiet.
#[local] Hint Extern 1 (quiet (os_path_isfile _)) => now apply quiet_logged : quiet.
#[local] Hint Extern 1 (quiet (try_open _)) => now apply quiet_logged : quiet.
#[local] Hint Extern 1 (quiet (try_listdir _)) => now apply quiet_logged : quiet.

Ltac quiet_step :=
  match goal with
  | |- quiet (bind _ _) => apply quiet_bind; [|intros ?]
  | |- quiet (if ?b then _ else _) => destruct b
  | |- quiet (match ?o with Some _ => _ | None => _ end) => destruct o
  | |- quiet _ => solve [auto with quiet]
  end.

Lemma quiet_send_file (path : string) :
  quiet (SimpleHTTPRequestHandler.send_file path).
Proof. unfold SimpleHTTPRequestHandler.send_file. repeat quiet_step. Qed.

Lemma quiet_list_directory (path : string) :
  quiet (SimpleHTTPRequestHandler.list_directory path).
Proof. unfold SimpleHTTPRequestHandler.list_directory. repeat quiet_step. Qed.

Lemma quiet_find_index (path : string) (pages : list string) :
  quiet (SimpleHTTPRequestHandler.find_index path pages).
Proof.
  induction pages as [|page pages IH]; simpl; [apply quiet_ret|].
  apply quiet_bind; [auto with quiet|]. intros [|]; [apply quiet_ret | exact IH].
Qed.

#[local] Hint Resolve quiet_send_file quiet_list_directory quiet_find_index : quiet.

Lemma quiet_send_head {ip : UrlParse.IpLiteral} :
  quiet SimpleHTTPRequestHandler.send_head.
Proof. unfold SimpleHTTPRequestHandler.send_head. repeat quiet_step. Qed.

(** ** The four ways through [SPAHandler.do_GET] *)

Section Routing.

Context {ip : UrlParse.IpLiteral}.

Lemma request_path_parsed (target p : string) :
  SPAHandler.request_path target = Some p ->
  exists r, UrlParse.urlparse target = Some r /\ UrlParse.path r = p.
Proof.
  unfold SPAHandler.request_path.
  destruct (UrlParse.urlparse target) as [r|]; simpl; [|discriminate].
  intros H. exists r. split; congruence.
Qed.

(** [do_GET] as a function of the request path [p], the asset test and
    the existence test: the inherited [do_GET] runs on the request as it
    came, after one call of [os.path.exists] or none, or on ["/"]. *)
Lemma do_GET_cases (w : Os.world) (target p : string) :
  SPAHandler.request_path target = Some p ->
  SPAHandler.serve w target =
    if SPAHandler.is_asset p || String.eqb p "/" then
      SimpleHTTPRequestHandler.do_GET w (SPAHandler.request target)
    else
      SimpleHTTPRequestHandler.do_GET w
        {| self_path := if Os.exists_ w ("." ++ p) then target else "/";
           calls := [Os.Exists ("." ++ p)] |}.
Proof.
  intros (r & Hr & <-)%request_path_parsed.
  unfold SPAHandler.serve, SPAHandler.do_GET, bind, get_path, or_value_error.
  simpl. rewrite Hr. simpl.
  destruct (SPAHandler.is_asset (UrlParse.path r)); simpl; [reflexivity|].
  destruct (String.eqb (UrlParse.path r) "/"); simpl; [reflexivity|].
  unfold os_path_exists, logged, bind, ret. simpl.
  destruct (Os.exists_ w _); reflexivity.
Qed.

(** When [urlparse] raises, so does [do_GET], before anything else. *)
Lemma do_GET_raises (w : Os.world) (target : string) :
  SPAHandler.request_path target = None ->
  SPAHandler.serve w target = (Raise ValueError, SPAHandler.request target).
Proof.
  unfold SPAHandler.request_path, SPAHandler.serve, SPAHandler.do_GET, bind,
    get_path, or_value_error.
  simpl. destruct (UrlParse.urlparse target); simpl; [discriminate|reflexivity].
Qed.

(** [self.path] after [do_GET], case by case. *)
Lemma effective_path_cases (w : Os.world) (target p : string) :
  SPAHandler.request_path target = Some p ->
  SPAHandler.effective_path w target =
    if SPAHandler.is_asset p || String.eqb p "/" || Os.exists_ w ("." ++ p)
    then target else "/".
Proof.
  intros H. unfold SPAHandler.effective_path. rewrite (do_GET_cases w _ _ H).
  destruct (SPAHandler.is_asset p || String.eqb p "/"); cbn [orb].
  - apply quiet_send_head.
  - etransitivity; [apply quiet_send_head|]. reflexivity.
Qed.

(** The calls of [os.path.exists] during [do_GET], case by case. *)
Lemma existence_checks_cases (w : Os.world) (target p : string) :
  SPAHandler.request_path target = Some p ->
  SPAHandler.existence_checks w target =
    if SPAHandler.is_asset p || String.eqb p "/" then []
    else [Os.Exists ("." ++ p)].
Proof.
  intros H. unfold SPAHandler.existence_checks. rewrite (do_GET_cases w _ _ H).
  destruct (SPAHandler.is_asset p || String.eqb p "/").
  - apply quiet_send_head.
  - etransitivity; [apply quiet_send_head|]. reflexivity.
Qed.

End Routing.

(** ** The asset rule *)

(** [is_asset] is the rule of the first [if]: the prefix ["/assets/"] or
    one of the six extensions. *)
Lemma is_asset_rule (p : string) :
  SPAHandler.is_asset p = true <->
  Str.startswith p "/assets/" = true \/
  exists ext, In ext [".js"; ".css"; ".png"; ".jpg"; ".ico"; ".svg"] /\
              Str.endswith p ext = true.
Proof.
  unfold SPAHandler.is_asset, Str.endswith_any. rewrite orb_true_iff, existsb_exists.
  reflexivity.
Qed.

(** ** Claims about the routing decision *)

(** C1.  A request whose path starts with ["/assets/"] or ends in one of
    [.js .css .png .jpg .ico .svg] is served under its own [self.path]:
    the override hands the unmodified request to the inherited [do_GET]
    and never calls [os.path.exists], whatever the file system holds. *)
Theorem asset_path_served_unmodified {ip : UrlParse.IpLiteral}
    (w : Os.world) (target p : string) :
  SPAHandler.request_path target = Some p ->
  (Str.startswith p "/assets/" = true \/
   exists ext, In ext [".js"; ".css"; ".png"; ".jpg"; ".ico"; ".svg"] /\
               Str.endswith p ext = true) ->
  SPAHandler.effective_path w target = target /\
  SPAHandler.existence_checks w target = [] /\
  SPAHandler.serve w target =
    SimpleHTTPRequestHandler.do_GET w (SPAHandler.request target).
Proof.
  intros Hp Hasset%is_asset_rule.
  rewrite (effective_path_cases w _ _ Hp), (existence_checks_cases w _ _ Hp),
    (do_GET_cases w _ _ Hp), Hasset.
  repeat split.
Qed.

(** The absent [/assets/logo.png] of an empty world, with a query string. *)
Lemma asset_path_served_unmodified_witness :
  SPAHandler.effective_path (ip := UrlParse.unchecked_ip_literal)
    (Worlds.mount "/srv/app" []) "/assets/logo.png?v=2" = "/assets/logo.png?v=2".
Proof.
  apply (asset_path_served_unmodified (ip := UrlParse.unchecked_ip_literal)
           (Worlds.mount "/srv/app" []) "/assets/logo.png?v=2" "/assets/logo.png").
  - reflexivity.
  - left. reflexivity.
Defined.



(** C3.  A path that is not an asset and names something on disk is served
    under its own [self.path], whose path component is the request path. *)
Theorem existing_route_served_unmodified {ip : UrlParse.IpLiteral}
    (w : Os.world) (target p : string) :
  SPAHandler.request_path target = Some p ->
  SPAHandler.is_asset p = false ->
  Os.exists_ w ("." ++ p) = true ->
  SPAHandler.effective_path w target = target /\
  SPAHandler.request_path (SPAHandler.effective_path w target) = Some p.
Proof.
  intros Hp Hasset Hfound.
  rewrite (effective_path_cases w _ _ Hp), Hfound, orb_true_r.
  split; [reflexivity | exact Hp].
Qed.

Lemma existing_route_served_unmodified_witness :
  SPAHandler.effective_path (ip := UrlParse.unchecked_ip_literal)
    Worlds.site "/index.html" = "/index.html" /\
  SPAHandler.request_path (ip := UrlParse.unchecked_ip_literal)
    (SPAHandler.effective_path (ip := UrlParse.unchecked_ip_literal)
       Worlds.site "/index.html") = Some "/index.html".
Proof.
  apply (existing_route_served_unmodified (ip := UrlParse.unchecked_ip_literal)
           Worlds.site "/index.html" "/index.html"); reflexivity.
Defined.

(** C4.  The request for ["/"] is served as ["/"] and no call of
    [os.path.exists] is made for it; the same holds for every target whose
    path component is ["/"], which keeps its [self.path]. *)
Theorem root_served_without_existence_check {ip : UrlParse.IpLiteral} :
  (forall w, SPAHandler.effective_path w "/" = "/" /\
             SPAHandler.existence_checks w "/" = []) /\
  (forall w target,
     SPAHandler.request_path target = Some "/" ->
     SPAHandler.effective_path w target = target /\
     SPAHandler.existence_checks w target = []).
Proof.
  assert (H : forall w target,
     SPAHandler.request_path target = Some "/" ->
     SPAHandler.effective_path w target = target /\
     SPAHandler.existence_checks w target = []).
  { intros w target Hp.
    rewrite (effective_path_cases w _ _ Hp), (existence_checks_cases w _ _ Hp).
    split; reflexivity. }
  split; [|exact H].
  intros w. apply H. reflexivity.
Qed.

Lemma root_served_without_existence_check_witness :
  SPAHandler.effective_path (ip := UrlParse.unchecked_ip_literal)
    Worlds.bare "/?tab=2" = "/?tab=2" /\
  SPAHandler.existence_checks (ip := UrlParse.unchecked_ip_literal)
    Worlds.bare "/?tab=2" = [].
Proof.
  apply (proj2 (root_served_without_existence_check
                  (ip := UrlParse.unchecked_ip_literal)) Worlds.bare "/?tab=2").
  reflexivity.
Defined.



(** C7, as the code has it.  A request that is not an asset and whose path
    is not ["/"] makes exactly one call of [os.path.exists], on ["."]
    followed by the request path; the guard [path != '/'] comes first in
    the [and], so the request for ["/"] makes none. *)
Theorem one_existence_check_per_route {ip : UrlParse.IpLiteral}
    (w : Os.world) (target p : string) :
  SPAHandler.request_path target = Some p ->
  SPAHandler.is_asset p = false ->
  (p <> "/" -> SPAHandler.existence_checks w target = [Os.Exists ("." ++ p)]) /\
  (p = "/" -> SPAHandler.existence_checks w target = []).
Proof.
  intros Hp Hasset. rewrite (existence_checks_cases w _ _ Hp), Hasset.
  split.
  - intros Hroot%String.eqb_neq. now rewrite Hroot.
  - intros ->. reflexivity.
Qed.

Lemma one_existence_check_per_route_witness :
  SPAHandler.existence_checks (ip := UrlParse.unchecked_ip_literal)
    Worlds.site "/dashboard/settings?x=1" = [Os.Exists "./dashboard/settings"].
Proof.
  apply (proj1 (one_existence_check_per_route (ip := UrlParse.unchecked_ip_literal)
                  Worlds.site "/dashboard/settings?x=1" "/dashboard/settings"
                  eq_refl eq_refl)).
  discriminate.
Defined.

(** C7 as stated fails at the root: ["/"] is not an asset, and serving it
    makes no call of [os.path.exists] at all, not one. *)
Lemma root_request_makes_no_existence_check :
  SPAHandler.request_path (ip := UrlParse.unchecked_ip_literal) "/" = Some "/" /\
  SPAHandler.is_asset "/" = false /\
  length (SPAHandler.existence_checks (ip := UrlParse.unchecked_ip_literal)
            Worlds.site "/") <> 1.
Proof. repeat split. discriminate. Qed.

(** C9.  [os.path.exists] holds of directories as of files: a path that is
    not an asset and names a directory keeps its [self.path]. *)
Theorem directory_served_unmodified {ip : UrlParse.IpLiteral}
    (w : Os.world) (target p : string) :
  SPAHandler.request_path target = Some p ->
  SPAHandler.is_asset p = false ->
  Os.isdir w ("." ++ p) = true ->
  SPAHandler.effective_path w target = target /\
  SPAHandler.request_path (SPAHandler.effective_path w target) = Some p.
Proof.
  intros Hp Hasset Hdir.
  assert (Hfound : Os.exists_ w ("." ++ p) = true).
  { unfold Os.isdir in Hdir. unfold Os.exists_.
    destruct (Os.embedded_null ("." ++ p)); [discriminate|].
    now destruct (Os.stat w ("." ++ p)). }
  rewrite (effective_path_cases w _ _ Hp), Hfound, orb_true_r.
  split; [reflexivity | exact Hp].
Qed.

Lemma directory_served_unmodified_witness :
  SPAHandler.effective_path (ip := UrlParse.unchecked_ip_literal)
    Worlds.site "/docs" = "/docs" /\
  SPAHandler.request_path (ip := UrlParse.unchecked_ip_literal)
    (SPAHandler.effective_path (ip := UrlParse.unchecked_ip_literal)
       Worlds.site "/docs") = Some "/docs".
Proof.
  apply (directory_served_unmodified (ip := UrlParse.unchecked_ip_literal)
           Worlds.site "/docs" "/docs"); reflexivity.
Defined.

(** C10, as the code has it.  Only [do_GET] is overridden.  A request with
    another method leaves [self.path] as it is and calls [os.path.exists]
    never; [HEAD] runs the inherited [do_HEAD] on the request as it came,
    and any other method finds no [do_] method and is answered 501 with
    the file system untouched. *)
Theorem other_methods_not_rewritten {ip : UrlParse.IpLiteral}
    (command : string) (w : Os.world) (s : state) :
  command <> "GET" ->
  self_path (snd (SPAHandler.handle_command command w s)) = self_path s /\
  Os.existence_checks (calls (snd (SPAHandler.handle_command command w s))) =
    Os.existence_checks (calls s) /\
  (command = "HEAD" ->
   SPAHandler.handle_command command w s = SimpleHTTPRequestHandler.do_HEAD w s) /\
  (command <> "HEAD" ->
   SPAHandler.handle_command command w s = (Ok NotImplemented, s)).
Proof.
  intros Hget%String.eqb_neq. unfold SPAHandler.handle_command. rewrite Hget.
  destruct (String.eqb_spec command "HEAD") as [->|Hhead].
  - destruct (quiet_send_head w s) as [P C].
    split; [exact P|]. split; [exact C|]. split; [reflexivity|].
    intros Hhead. now elim Hhead.
  - split; [reflexivity|]. split; [reflexivity|]. split; [|reflexivity].
    intros E. now elim Hhead.
Qed.

Lemma other_methods_not_rewritten_witness :
  SPAHandler.handle_command (ip := UrlParse.unchecked_ip_literal) "HEAD"
    Worlds.site (SPAHandler.request "/dashboard") =
  SimpleHTTPRequestHandler.do_HEAD (ip := UrlParse.unchecked_ip_literal)
    Worlds.site (SPAHandler.request "/dashboard").
Proof.
  apply (other_methods_not_rewritten (ip := UrlParse.unchecked_ip_literal)
           "HEAD" Worlds.site (SPAHandler.request "/dashboard")).
  - discriminate.
  - reflexivity.
Defined.

(** C10 as stated fails for [POST]: the request is not passed to the
    static file handler, which would have sent [/index.html]; it is
    answered 501 and no file is looked at. *)
Lemma post_not_passed_to_static_handler :
  SPAHandler.handle_command (ip := UrlParse.unchecked_ip_literal) "POST"
    Worlds.site (SPAHandler.request "/index.html") =
  (Ok NotImplemented, SPAHandler.request "/index.html") /\
  SimpleHTTPRequestHandler.send_head (ip := UrlParse.unchecked_ip_literal)
    Worlds.site (SPAHandler.request "/index.html") =
  (Ok (FileResponse "/srv/app/index.html"),
   {| self_path := "/index.html";
      calls := [Os.Isdir "/srv/app/index.html"; Os.Open "/srv/app/index.html"] |}).
Proof. split; reflexivity. Qed.

(** ** What [urlparse] keeps as the path *)

Lemma splitparams_prefix (s : string) :
  exists rest, s = fst (UrlParse.splitparams s) ++ rest.
Proof.
  assert (Whole : exists rest, s = s ++ rest).
  { exists EmptyString. now rewrite append_nil_r. }
  unfold UrlParse.splitparams.
  destruct (Str.rpartition "/" s) as [[d seg]|] eqn:R.
  - destruct (Str.partition ";" seg) as [[name prm]|] eqn:P; simpl; [|exact Whole].
    exists (String ";" prm).
    apply rpartition_app in R. apply partition_app in P. subst.
    rewrite !append_assoc. reflexivity.
  - destruct (Str.partition ";" s) as [[name prm]|] eqn:P; simpl; [|exact Whole].
    exists (String ";" prm). now apply partition_app.
Qed.

Section PathComponent.

Context {ip : UrlParse.IpLiteral}.

(** Whatever the form of the target, the path of [urlsplit] is what is
    left of some text once the fragment and then the query are split off. *)
Lemma urlsplit_path (target : string) (r : UrlParse.ParseResult) :
  UrlParse.urlsplit target = Some r ->
  exists url,
    UrlParse.path r = fst (Str.split1 "?" (fst (Str.split1 "#" url))).
Proof.
  unfold UrlParse.urlsplit.
  destruct (UrlParse.split_scheme _) as [sch u0].
  destruct (if Str.startswith u0 "//" then _ else _) as [nl u].
  destruct (_ && _); [discriminate|].
  destruct (_ && _); [discriminate|].
  destruct (Str.split1 "#" u) as [u1 fr] eqn:E1.
  destruct (Str.split1 "?" u1) as [u2 q] eqn:E2.
  intros [= <-]. exists u. simpl. now rewrite E1; simpl; rewrite E2.
Qed.

Lemma urlsplit_path_free (target : string) (r : UrlParse.ParseResult) :
  UrlParse.urlsplit target = Some r ->
  Str.contains "?" (UrlParse.path r) = false /\
  Str.contains "#" (UrlParse.path r) = false.
Proof.
  intros (url & ->)%urlsplit_path. split.
  - apply split1_head_free.
  - destruct (split1_prefix "?" (fst (Str.split1 "#" url))) as [rest E].
    apply contains_prefix with (b := rest). rewrite <- E.
    apply split1_head_free.
Qed.

(** [urlparse] keeps the path of [urlsplit] or a prefix of it. *)
Lemma urlparse_path (target : string) (r : UrlParse.ParseResult) :
  UrlParse.urlparse target = Some r ->
  exists r0 rest,
    UrlParse.urlsplit target = Some r0 /\
    UrlParse.path r0 = UrlParse.path r ++ rest.
Proof.
  unfold UrlParse.urlparse.
  destruct (UrlParse.urlsplit target) as [r0|]; [|discriminate].
  destruct (_ && _).
  - destruct (UrlParse.splitparams (UrlParse.path r0)) as [u prm] eqn:E.
    intros [= <-]. simpl.
    destruct (splitparams_prefix (UrlParse.path r0)) as (rest & Hr).
    rewrite E in Hr. exists r0, rest. auto.
  - intros [= <-]. exists r0, EmptyString.
    split; [reflexivity|]. now rewrite append_nil_r.
Qed.

End PathComponent.

(** ** Origin-form targets *)

Lemma startswith_slash (s : string) :
  Str.startswith s "/" = true -> exists r, s = String "/" r.
Proof.
  unfold Str.startswith. destruct s as [|a r]; cbn -[ascii_dec]; [discriminate|].
  destruct (ascii_dec "/" a) as [<-|]; [|discriminate].
  intros _. now exists r.
Qed.

Lemma word_has_no_space (c : ascii) (s : string) :
  Str.isspace c = true -> is_word s = true -> Str.contains c s = false.
Proof.
  intros Hc. unfold is_word.
  induction s as [|a r IH]; simpl; [reflexivity|].
  intros [Ha Hr]%andb_true_iff. rewrite (IH Hr), orb_false_r.
  destruct (Ascii.eqb_spec a c) as [->|]; [|reflexivity].
  rewrite Hc in Ha. discriminate.
Qed.

Lemma word_remove_unsafe (s : string) :
  is_word s = true -> UrlParse.remove_unsafe s = s.
Proof.
  intros H. unfold UrlParse.remove_unsafe.
  rewrite (remove_absent "009" s) by now apply word_has_no_space.
  rewrite (remove_absent "013" s) by now apply word_has_no_space.
  apply remove_absent. now apply word_has_no_space.
Qed.

Lemma split_scheme_slash (r : string) :
  UrlParse.split_scheme (String "/" r) = (EmptyString, String "/" r).
Proof.
  unfold UrlParse.split_scheme. simpl.
  now destruct (Str.partition ":" r) as [[h t]|].
Qed.

Section OriginForm.

Context {ip : UrlParse.IpLiteral}.

(** A target that starts with one slash has no scheme and no netloc; its
    path is the target up to the first [#] or [?]. *)
Lemma urlsplit_origin_form (target : string) :
  Str.startswith target "/" = true ->
  Str.startswith target "//" = false ->
  is_word target = true ->
  exists r,
    UrlParse.urlsplit target = Some r /\
    UrlParse.scheme r = EmptyString /\
    UrlParse.path r = fst (Str.split1 "?" (fst (Str.split1 "#" target))).
Proof.
  intros [t ->]%startswith_slash Hnet Hword.
  unfold UrlParse.urlsplit.
  change (Str.lstrip UrlParse.c0_control_or_space (String "/" t))
    with (String "/" t).
  rewrite (word_remove_unsafe _ Hword), split_scheme_slash, Hnet.
  cbn [andb Str.contains negb orb].
  destruct (Str.split1 "#" (String "/" t)) as [u1 fr].
  cbn [fst].
  destruct (Str.split1 "?" u1) as [u2 q].
  eexists. split; [reflexivity|]. split; reflexivity.
Qed.

(** All the parts of such a target. *)
Lemma urlsplit_origin_form_parts (target : string) :
  Str.startswith target "/" = true ->
  Str.startswith target "//" = false ->
  is_word target = true ->
  UrlParse.urlsplit target =
    Some {| UrlParse.scheme := EmptyString;
            UrlParse.netloc := EmptyString;
            UrlParse.path := fst (Str.split1 "?" (fst (Str.split1 "#" target)));
            UrlParse.params := EmptyString;
            UrlParse.query := snd (Str.split1 "?" (fst (Str.split1 "#" target)));
            UrlParse.fragment := snd (Str.split1 "#" target) |}.
Proof.
  intros [t ->]%startswith_slash Hnet Hword.
  unfold UrlParse.urlsplit.
  change (Str.lstrip UrlParse.c0_control_or_space (String "/" t))
    with (String "/" t).
  rewrite (word_remove_unsafe _ Hword), split_scheme_slash, Hnet.
  cbn [andb Str.contains negb orb].
  destruct (Str.split1 "#" (String "/" t)) as [u1 fr].
  cbn [fst snd].
  now destruct (Str.split1 "?" u1) as [u2 q].
Qed.

End OriginForm.

(** ** The inherited handler on the document root *)

Lemma translate_path_root (directory : string) :
  SimpleHTTPRequestHandler.translate_path directory "/" = directory ++ "/".
Proof. reflexivity. Qed.

Lemma join_root (directory page : string) :
  Str.startswith page "/" = false ->
  PosixPath.join (directory ++ "/") page = (directory ++ "/") ++ page.
Proof.
  intros H. unfold PosixPath.join.
  now rewrite H, append_cons_nonempty, endswith_app.
Qed.

(** A name that ends in a letter does not end in a slash. *)
Lemma endswith_slash_app (a b : string) (x : ascii) :
  x <> "/"%char -> Str.endswith (a ++ b ++ String x EmptyString) "/" = false.
Proof.
  intros Hx. destruct (Str.endswith _ "/") eqn:E; [|reflexivity].
  rewrite <- append_assoc in E.
  pose proof (endswith_app (a ++ b) (String x EmptyString)) as E'.
  pose proof (endswith_same_length _ "/" (String x EmptyString) eq_refl E E').
  congruence.
Qed.

Lemma isfile_no_null (w : Os.world) (p : string) :
  Os.isfile w p = true -> Os.embedded_null p = false.
Proof. unfold Os.isfile. now destruct (Os.embedded_null p). Qed.

Lemma isdir_no_null (w : Os.world) (p : string) :
  Os.isdir w p = true -> Os.embedded_null p = false.
Proof. unfold Os.isdir. now destruct (Os.embedded_null p). Qed.

Lemma send_file_result (w : Os.world) (s : state) (f : string) :
  Os.embedded_null f = false ->
  fst (SimpleHTTPRequestHandler.send_file f w s) =
    Ok (if Str.endswith f "/" then NotFound
        else if Os.can_open w f then FileResponse f else NotFound).
Proof.
  intros Hnull. unfold SimpleHTTPRequestHandler.send_file.
  destruct (Str.endswith f "/"); [reflexivity|].
  unfold bind, try_open, logged, ret. simpl. rewrite Hnull.
  now destruct (Os.can_open w f).
Qed.

Lemma list_directory_result (w : Os.world) (s : state) (d : string) :
  Os.embedded_null d = false ->
  fst (SimpleHTTPRequestHandler.list_directory d w s) =
    Ok (if Os.can_list w d then DirectoryListing d else NotFound).
Proof.
  intros Hnull.
  unfold SimpleHTTPRequestHandler.list_directory, bind, try_listdir, logged, ret.
  simpl. rewrite Hnull. now destruct (Os.can_list w d).
Qed.

Lemma find_index_result (w : Os.world) (s : state) (path : string)
    (pages : list string) :
  fst (SimpleHTTPRequestHandler.find_index path pages w s) =
    Ok (find (Os.isfile w) (map (PosixPath.join path) pages)).
Proof.
  revert s. induction pages as [|page pages IH]; intros s; [reflexivity|].
  cbn [SimpleHTTPRequestHandler.find_index map find].
  unfold bind, os_path_isfile, logged. cbn [fst snd].
  destruct (Os.isfile w (PosixPath.join path page)); [reflexivity|].
  apply IH.
Qed.

Section DocumentRoot.

Context {ip : UrlParse.IpLiteral}.

Lemma urlsplit_root :
  UrlParse.urlsplit "/" =
    Some {| UrlParse.scheme := EmptyString; UrlParse.netloc := EmptyString;
            UrlParse.path := "/"; UrlParse.params := EmptyString;
            UrlParse.query := EmptyString; UrlParse.fragment := EmptyString |}.
Proof. reflexivity. Qed.

(** [send_head] with [self.path == '/'] on a served directory: the first
    of [index.html], [index.htm] that is a regular file is sent, if it can
    be opened; with neither, the directory is listed, if it can be. *)
Lemma send_head_root (w : Os.world) (s : state) :
  self_path s = "/" ->
  Os.isdir w (Os.directory w ++ "/") = true ->
  fst (SimpleHTTPRequestHandler.send_head w s) =
    Ok (match find (Os.isfile w)
                [(Os.directory w ++ "/") ++ "index.html";
                 (Os.directory w ++ "/") ++ "index.htm"] with
        | Some index =>
            if Os.can_open w index then FileResponse index else NotFound
        | None =>
            if Os.can_list w (Os.directory w ++ "/")
            then DirectoryListing (Os.directory w ++ "/") else NotFound
        end).
Proof.
  destruct s as [sp log]. cbn [self_path]. intros -> Hdir.
  unfold SimpleHTTPRequestHandler.send_head, bind, get_path, get_directory,
    os_path_isdir, logged, or_value_error, ret.
  cbn [fst snd self_path calls].
  rewrite translate_path_root, Hdir, urlsplit_root.
  cbn [UrlParse.path].
  change (Str.endswith "/" "/") with true. cbn [negb].
  match goal with
  | |- context [SimpleHTTPRequestHandler.find_index ?d ?pages w ?s0] =>
      pose proof (find_index_result w s0 d pages) as Hfind;
      destruct (SimpleHTTPRequestHandler.find_index d pages w s0) as [[index|e] s1]
  end; cbn [fst] in Hfind; [|discriminate].
  injection Hfind as ->. cbn [map].
  rewrite !join_root by reflexivity.
  cbn [find].
  destruct (Os.isfile w ((Os.directory w ++ "/") ++ "index.html")) eqn:Hhtml;
    [|destruct (Os.isfile w ((Os.directory w ++ "/") ++ "index.htm")) eqn:Hhtm].
  - rewrite send_file_result by (eapply isfile_no_null; eassumption).
    assert (Hslash : Str.endswith ((Os.directory w ++ "/") ++ "index.html") "/"
                     = false).
    { rewrite append_assoc.
      apply (endswith_slash_app (Os.directory w) "/index.htm" "l"). discriminate. }
    now rewrite Hslash.
  - rewrite send_file_result by (eapply isfile_no_null; eassumption).
    assert (Hslash : Str.endswith ((Os.directory w ++ "/") ++ "index.htm") "/"
                     = false).
    { rewrite append_assoc.
      apply (endswith_slash_app (Os.directory w) "/index.ht" "m"). discriminate. }
    now rewrite Hslash.
  - apply list_directory_result. eapply isdir_no_null; eassumption.
Qed.

End DocumentRoot.

(** * The answer, and further properties of [do_GET] *)

(** ** The answer of the inherited handler *)

Lemma send_file_stateless (w : Os.world) (s s' : state) (f : string) :
  fst (SimpleHTTPRequestHandler.send_file f w s) =
  fst (SimpleHTTPRequestHandler.send_file f w s').
Proof.
  unfold SimpleHTTPRequestHandler.send_file.
  destruct (Str.endswith f "/"); [reflexivity|].
  unfold bind, try_open, logged, ret. cbn [fst snd].
  destruct (Os.embedded_null f); [reflexivity|].
  now destruct (Os.can_open w f).
Qed.

Lemma list_directory_stateless (w : Os.world) (s s' : state) (d : string) :
  fst (SimpleHTTPRequestHandler.list_directory d w s) =
  fst (SimpleHTTPRequestHandler.list_directory d w s').
Proof.
  unfold SimpleHTTPRequestHandler.list_directory, bind, try_listdir, logged, ret.
  cbn [fst snd].
  destruct (Os.embedded_null d); [reflexivity|].
  now destruct (Os.can_list w d).
Qed.

Section InheritedAnswer.

Context {ip : UrlParse.IpLiteral}.

(** The answer of [send_head], read off its branches: it depends on the
    state through the translated path and the path of [urlsplit] only. *)
Lemma send_head_fst (w : Os.world) (s : state) :
  fst (SimpleHTTPRequestHandler.send_head w s) =
    if Os.isdir w (SimpleHTTPRequestHandler.translate_path
                     (Os.directory w) (self_path s))
    then
      match UrlParse.urlsplit (self_path s) with
      | None => Raise ValueError
      | Some parts =>
          if negb (Str.endswith (UrlParse.path parts) "/")
          then Ok (MovedPermanently
                     (SimpleHTTPRequestHandler.redirect_location parts))
          else
            match find (Os.isfile w)
                    (map (PosixPath.join
                            (SimpleHTTPRequestHandler.translate_path
                               (Os.directory w) (self_path s)))
                         ["index.html"; "index.htm"]) with
            | Some index =>
                fst (SimpleHTTPRequestHandler.send_file index w s)
            | None =>
                fst (SimpleHTTPRequestHandler.list_directory
                       (SimpleHTTPRequestHandler.translate_path
                          (Os.directory w) (self_path s)) w s)
            end
      end
    else
      fst (SimpleHTTPRequestHandler.send_file
             (SimpleHTTPRequestHandler.translate_path
                (Os.directory w) (self_path s)) w s).
Proof.
  destruct s as [sp log].
  unfold SimpleHTTPRequestHandler.send_head, bind, get_path, get_directory,
    os_path_isdir, logged, or_value_error.
  cbn [fst snd self_path calls].
  destruct (Os.isdir w _); [|apply send_file_stateless].
  destruct (UrlParse.urlsplit sp) as [parts|]; [|reflexivity].
  unfold ret. cbn beta iota.
  destruct (negb _); [reflexivity|].
  match goal with
  | |- context [SimpleHTTPRequestHandler.find_index ?d ?pages w ?s0] =>
      pose proof (find_index_result w s0 d pages) as Hfind;
      destruct (SimpleHTTPRequestHandler.find_index d pages w s0) as [[index|e] s1]
  end; cbn [fst] in Hfind; [|discriminate].
  injection Hfind as ->. cbn [find map].
  destruct (Os.isfile w _); [apply send_file_stateless|].
  destruct (Os.isfile w _); [apply send_file_stateless|].
  apply list_directory_stateless.
Qed.

(** The log does not matter to the answer. *)
Lemma send_head_log (w : Os.world) (s s' : state) :
  self_path s = self_path s' ->
  fst (SimpleHTTPRequestHandler.send_head w s) =
  fst (SimpleHTTPRequestHandler.send_head w s').
Proof.
  intros E. rewrite !send_head_fst, <- E.
  destruct (Os.isdir w _); [|apply send_file_stateless].
  destruct (UrlParse.urlsplit (self_path s)) as [parts|]; [|reflexivity].
  destruct (negb _); [reflexivity|].
  destruct (find _ _) as [index|].
  - apply send_file_stateless.
  - apply list_directory_stateless.
Qed.

(** A request that is rewritten runs the inherited handler on ["/"]. *)
Lemma rewritten_runs_root (w : Os.world) (target p : string) :
  SPAHandler.request_path target = Some p ->
  SPAHandler.is_asset p = false ->
  p <> "/" ->
  Os.exists_ w ("." ++ p) = false ->
  SPAHandler.serve w target =
    SimpleHTTPRequestHandler.send_head w
      {| self_path := "/"; calls := [Os.Exists ("." ++ p)] |}.
Proof.
  intros Hp Hasset Hroot%String.eqb_neq Hmissing.
  now rewrite (do_GET_cases w _ _ Hp), Hasset, Hroot, Hmissing.
Qed.

(** A request that is not rewritten runs it on the target. *)
Lemma kept_runs_target (w : Os.world) (target p : string) :
  SPAHandler.request_path target = Some p ->
  SPAHandler.is_asset p || String.eqb p "/" || Os.exists_ w ("." ++ p) = true ->
  exists log,
    SPAHandler.serve w target =
      SimpleHTTPRequestHandler.send_head w {| self_path := target; calls := log |}.
Proof.
  intros Hp Hkept. rewrite (do_GET_cases w _ _ Hp).
  destruct (SPAHandler.is_asset p || String.eqb p "/").
  - now exists [].
  - cbn [orb] in Hkept. rewrite Hkept. now exists [Os.Exists ("." ++ p)].
Qed.

End InheritedAnswer.

(** ** The fallback answer *)

Lemma send_file_opens (w : Os.world) (s : state) (f : string) :
  Str.endswith f "/" = false ->
  In (Os.Open f) (calls (snd (SimpleHTTPRequestHandler.send_file f w s))).
Proof.
  intros Hslash. unfold SimpleHTTPRequestHandler.send_file. rewrite Hslash.
  unfold bind, try_open, logged, ret. cbn [fst snd].
  destruct (Os.embedded_null f); [|destruct (Os.can_open w f)];
    cbn [snd calls]; apply in_or_app; right; now left.
Qed.

(** With [self.path == '/'] and [index.html] a regular file of the served
    directory, [send_head] opens that file. *)
Lemma send_head_root_opens_index {ip : UrlParse.IpLiteral}
    (w : Os.world) (s : state) :
  self_path s = "/" ->
  Os.isdir w (Os.directory w ++ "/") = true ->
  Os.isfile w (Os.directory w ++ "/index.html") = true ->
  In (Os.Open (Os.directory w ++ "/index.html"))
     (calls (snd (SimpleHTTPRequestHandler.send_head w s))).
Proof.
  destruct s as [sp log]. cbn [self_path]. intros -> Hdir Hfile.
  unfold SimpleHTTPRequestHandler.send_head, bind, get_path, get_directory,
    os_path_isdir, logged, or_value_error, ret.
  cbn [fst snd self_path calls].
  rewrite translate_path_root, Hdir, urlsplit_root.
  cbn [UrlParse.path].
  change (Str.endswith "/" "/") with true. cbn [negb].
  cbn [SimpleHTTPRequestHandler.find_index].
  unfold bind, os_path_isfile, logged. cbn [fst snd self_path calls].
  rewrite join_root by reflexivity. rewrite append_assoc.
  change ("/" ++ "index.html") with "/index.html". rewrite Hfile.
  apply send_file_opens.
  apply (endswith_slash_app (Os.directory w) "/index.htm" "l"). discriminate.
Qed.

(** X1.  The single-page behaviour: for a request that is not an asset,
    is not ["/"] and names nothing on disk, the inherited handler opens
    [index.html] of the served directory whenever that is a regular file,
    and the answer is 404 when it cannot be opened. *)
Theorem client_route_opens_index_html {ip : UrlParse.IpLiteral}
    (w : Os.world) (target p : string) :
  SPAHandler.request_path target = Some p ->
  SPAHandler.is_asset p = false ->
  p <> "/" ->
  Os.exists_ w ("." ++ p) = false ->
  Os.isdir w (Os.directory w ++ "/") = true ->
  Os.isfile w (Os.directory w ++ "/index.html") = true ->
  In (Os.Open (Os.directory w ++ "/index.html"))
     (calls (snd (SPAHandler.serve w target))) /\
  (Os.can_open w (Os.directory w ++ "/index.html") = false ->
   fst (SPAHandler.serve w target) = Ok NotFound).
Proof.
  intros Hp Hasset Hroot Hmissing Hdir Hfile.
  rewrite (rewritten_runs_root w _ _ Hp Hasset Hroot Hmissing).
  split.
  - now apply send_head_root_opens_index.
  - intros Hopen.
    rewrite send_head_root by (reflexivity || exact Hdir).
    cbn [find]. rewrite !append_assoc.
    change ("/" ++ "index.html") with "/index.html".
    now rewrite Hfile, Hopen.
Qed.

Lemma client_route_opens_index_html_witness :
  In (Os.Open "/srv/app/index.html")
     (calls (snd (SPAHandler.serve (ip := UrlParse.unchecked_ip_literal)
                    Worlds.site "/users/42/edit?tab=1"))).
Proof.
  apply (client_route_opens_index_html (ip := UrlParse.unchecked_ip_literal)
           Worlds.site "/users/42/edit?tab=1" "/users/42/edit");
    try reflexivity.
  discriminate.
Defined.

(** X2.  Every rewritten request is answered exactly as [GET /] is in the
    same world, whatever its target. *)
Theorem rewritten_request_answered_like_root {ip : UrlParse.IpLiteral}
    (w : Os.world) (target p : string) :
  SPAHandler.request_path target = Some p ->
  SPAHandler.is_asset p = false ->
  p <> "/" ->
  Os.exists_ w ("." ++ p) = false ->
  fst (SPAHandler.serve w target) = fst (SPAHandler.serve w "/").
Proof.
  intros Hp Hasset Hroot Hmissing.
  rewrite (rewritten_runs_root w _ _ Hp Hasset Hroot Hmissing).
  rewrite (do_GET_cases w "/" "/") by reflexivity.
  cbn [orb SPAHandler.is_asset String.eqb Ascii.eqb Bool.eqb].
  now apply send_head_log.
Qed.

Lemma rewritten_request_answered_like_root_witness :
  fst (SPAHandler.serve (ip := UrlParse.unchecked_ip_literal)
         Worlds.site "/users/42/edit") =
  fst (SPAHandler.serve (ip := UrlParse.unchecked_ip_literal) Worlds.site "/").
Proof.
  apply (rewritten_request_answered_like_root
           (ip := UrlParse.unchecked_ip_literal)
           Worlds.site "/users/42/edit" "/users/42/edit");
    try reflexivity.
  discriminate.
Defined.

(** ** Files are served from below the directory *)

Lemma split_nonempty (c : ascii) (s : string) :
  exists w ws, Str.split c s = w :: ws.
Proof.
  destruct s as [|a r]; simpl; [now eexists; eexists|].
  destruct (Ascii.eqb a c); [now eexists; eexists|].
  destruct (Str.split c r); now eexists; eexists.
Qed.

Lemma split_app_sep (c : ascii) (a b : string) :
  Str.split c (a ++ String c b) = (Str.split c a ++ Str.split c b)%list.
Proof.
  induction a as [|x a IH]; simpl.
  - now rewrite Ascii.eqb_refl.
  - destruct (Ascii.eqb x c); [now rewrite IH|].
    rewrite IH. now destruct (split_nonempty c a) as (w & ws & ->).
Qed.

Lemma split_no_sep (c : ascii) (s : string) :
  Str.contains c s = false -> Str.split c s = [s].
Proof.
  induction s as [|a r IH]; simpl; [reflexivity|].
  destruct (Ascii.eqb a c); simpl; [discriminate|].
  intros H. now rewrite (IH H).
Qed.

Lemma rpartition_none (c : ascii) (s : string) :
  Str.rpartition c s = None -> Str.contains c s = false.
Proof.
  induction s as [|a r IH]; simpl; [reflexivity|].
  destruct (Str.rpartition c r) as [[h t]|]; [discriminate|].
  destruct (Ascii.eqb a c); [discriminate|].
  intros _. now apply IH.
Qed.

Lemma rpartition_absent (c : ascii) (s : string) :
  Str.contains c s = false -> Str.rpartition c s = None.
Proof.
  induction s as [|a r IH]; simpl; [reflexivity|].
  destruct (Ascii.eqb a c); simpl; [discriminate|].
  intros H. now rewrite (IH H).
Qed.

Lemma rstrip_empty (p : ascii -> bool) (s : string) :
  Str.rstrip p s = EmptyString -> Str.all p s = true.
Proof.
  induction s as [|a r IH]; simpl; [reflexivity|].
  destruct (Str.rstrip p r); [|discriminate].
  destruct (p a); [|discriminate].
  intros _. now apply IH.
Qed.

(** A word that [translate_path] keeps has no slash in it. *)
Lemma dirname_empty (word : string) :
  PosixPath.dirname word = EmptyString -> Str.contains "/" word = false.
Proof.
  unfold PosixPath.dirname.
  destruct (Str.rpartition "/" word) as [[before t]|] eqn:R.
  - destruct (Str.all PosixPath.is_slash (before ++ "/")) eqn:A; cbn [negb].
    + intros H. destruct before; discriminate.
    + intros H%rstrip_empty. congruence.
  - intros _. now apply rpartition_none.
Qed.

Lemma dirname_no_slash (word : string) :
  Str.contains "/" word = false -> PosixPath.dirname word = EmptyString.
Proof.
  intros H. unfold PosixPath.dirname. now rewrite rpartition_absent.
Qed.

(** [s] is [s] cut at any place. *)
Lemma substring_cut (n : nat) (s : string) :
  n <= String.length s ->
  s = String.substring 0 n s ++ String.substring n (String.length s - n) s.
Proof.
  revert s. induction n as [|n IH]; intros s Hn.
  - cbn [String.substring]. destruct s as [|a r]; cbn.
    + reflexivity.
    + f_equal. clear. induction r as [|b r IH]; cbn; congruence.
  - destruct s as [|a r]; cbn in Hn; [lia|].
    cbn. f_equal. apply IH. lia.
Qed.

Lemma endswith_inv (s suf : string) :
  Str.endswith s suf = true -> exists a, s = a ++ suf.
Proof.
  unfold Str.endswith.
  intros [Hlen%Nat.leb_le Hsuf%String.eqb_eq]%andb_true_iff.
  exists (String.substring 0 (String.length s - String.length suf) s).
  pose proof (substring_cut (String.length s - String.length suf) s) as Hcut.
  replace (String.length s - (String.length s - String.length suf))
    with (String.length suf) in Hcut by lia.
  rewrite Hsuf in Hcut. apply Hcut. lia.
Qed.

(** When [d ++ rest] ends in a slash and [rest] is not empty, [rest] ends
    in that slash. *)
Lemma app_tail_slash (d rest r : string) :
  d ++ rest = r ++ "/" -> rest <> EmptyString -> exists r0, rest = r0 ++ "/".
Proof.
  revert r. induction d as [|x d IH]; cbn; intros r E Hrest.
  - now exists r.
  - destruct r as [|y r]; cbn in E.
    + injection E as _ E. destruct d; [cbn in E; congruence | discriminate].
    + injection E as _ E. now apply (IH r).
Qed.

Lemma confined_empty : confined EmptyString.
Proof. unfold confined. cbn. intros [H|[]]. discriminate. Qed.

Lemma confined_slash (rest : string) : confined rest -> confined (rest ++ "/").
Proof.
  unfold confined. rewrite split_app_sep. cbn.
  intros H [Hin|[Hin|[]]]%in_app_or; [now apply H | discriminate].
Qed.

Lemma confined_sep (rest word : string) :
  confined rest -> Str.contains "/" word = false -> word <> ".." ->
  confined (rest ++ "/" ++ word).
Proof.
  unfold confined. intros Hrest Hword Hdots.
  change (rest ++ "/" ++ word) with (rest ++ String "/" word).
  rewrite split_app_sep, (split_no_sep _ _ Hword).
  intros [Hin|[Hin|[]]]%in_app_or; [now apply Hrest | congruence].
Qed.

Lemma confined_direct (rest word : string) :
  rest = EmptyString \/ (exists r0, rest = r0 ++ "/") ->
  confined rest -> Str.contains "/" word = false -> word <> ".." ->
  confined (rest ++ word).
Proof.
  intros [->|[r0 ->]] Hrest Hword Hdots.
  - cbn. unfold confined. rewrite (split_no_sep _ _ Hword).
    intros [Hin|[]]. congruence.
  - rewrite append_assoc. apply confined_sep; try assumption.
    unfold confined in *. rewrite split_app_sep in Hrest.
    intros Hin. apply Hrest. apply in_or_app. now left.
Qed.

(** [join] onto a path below [d] with a slash-free name other than [..]
    stays below [d]. *)
Lemma join_confined (d rest word : string) :
  confined rest -> Str.contains "/" word = false -> word <> ".." ->
  exists rest', PosixPath.join (d ++ rest) word = d ++ rest' /\ confined rest'.
Proof.
  intros Hrest Hword Hdots. unfold PosixPath.join.
  assert (Hstart : Str.startswith word "/" = false).
  { unfold Str.startswith. destruct word as [|a r]; [reflexivity|].
    cbn -[ascii_dec]. cbn in Hword. apply orb_false_iff in Hword as [Ha _].
    destruct (ascii_dec "/" a) as [<-|]; [discriminate|reflexivity]. }
  rewrite Hstart.
  destruct (String.eqb (d ++ rest) EmptyString || Str.endswith (d ++ rest) "/")
    eqn:E.
  - exists (rest ++ word). split; [now rewrite append_assoc|].
    apply confined_direct; try assumption.
    destruct rest as [|x rest]; [now left|]. right.
    apply orb_true_iff in E as [E%String.eqb_eq|[r E]%endswith_inv].
    + destruct d; discriminate.
    + eapply app_tail_slash; [exact E | discriminate].
  - exists (rest ++ "/" ++ word). split; [now rewrite !append_assoc|].
    now apply confined_sep.
Qed.

Lemma translate_word_confined (d rest word : string) :
  confined rest ->
  exists rest',
    SimpleHTTPRequestHandler.translate_word (d ++ rest) word = d ++ rest' /\
    confined rest'.
Proof.
  intros Hrest. unfold SimpleHTTPRequestHandler.translate_word.
  destruct (String.eqb_spec (PosixPath.dirname word) EmptyString) as [Hdir|];
    cbn [negb orb]; [|now exists rest].
  destruct (String.eqb_spec word "."); cbn [orb]; [now exists rest|].
  destruct (String.eqb_spec word ".."); [now exists rest|].
  apply join_confined; auto using dirname_empty.
Qed.

Lemma translate_words_confined (d : string) (words : list string) (rest : string) :
  confined rest ->
  exists rest',
    fold_left SimpleHTTPRequestHandler.translate_word words (d ++ rest)
      = d ++ rest' /\
    confined rest'.
Proof.
  revert rest. induction words as [|word words IH]; intros rest Hrest; cbn.
  - now exists rest.
  - destruct (translate_word_confined d rest word Hrest) as (rest1 & -> & H1).
    now apply IH.
Qed.

(** [translate_path] never leaves the directory: its result is the
    directory followed by a name with no [..] component. *)
Lemma translate_path_confined (d path : string) :
  exists rest,
    SimpleHTTPRequestHandler.translate_path d path = d ++ rest /\ confined rest.
Proof.
  unfold SimpleHTTPRequestHandler.translate_path.
  match goal with
  | |- context [fold_left _ ?ws d] =>
      destruct (translate_words_confined d ws EmptyString confined_empty)
        as (rest & E & Hrest)
  end.
  rewrite append_nil_r in E. rewrite E.
  destruct (Str.endswith _ "/").
  - exists (rest ++ "/"). split; [now rewrite append_assoc | now apply confined_slash].
  - now exists rest.
Qed.

Lemma send_file_outcome (w : Os.world) (s : state) (p : string) (r : response) :
  fst (SimpleHTTPRequestHandler.send_file p w s) = Ok r ->
  r = FileResponse p \/ r = NotFound.
Proof.
  unfold SimpleHTTPRequestHandler.send_file.
  destruct (Str.endswith p "/"); [intros [= <-]; now right|].
  unfold bind, try_open, logged, ret. cbn [fst snd].
  destruct (Os.embedded_null p); [discriminate|].
  destruct (Os.can_open w p); intros [= <-]; auto.
Qed.

Lemma list_directory_outcome (w : Os.world) (s : state) (d : string)
    (r : response) :
  fst (SimpleHTTPRequestHandler.list_directory d w s) = Ok r ->
  r = DirectoryListing d \/ r = NotFound.
Proof.
  unfold SimpleHTTPRequestHandler.list_directory, bind, try_listdir, logged, ret.
  cbn [fst snd].
  destruct (Os.embedded_null d); [discriminate|].
  destruct (Os.can_list w d); intros [= <-]; auto.
Qed.

(** The same walk keeps a slash between the directory and what follows
    it, when the directory has a name that does not end in one. *)
Lemma append_inv_head (a b c : string) : a ++ b = a ++ c -> b = c.
Proof. induction a as [|x a IH]; cbn; [auto | intros [= H]; auto]. Qed.

Lemma join_rooted (d rest word : string) :
  d <> EmptyString -> Str.endswith d "/" = false ->
  rest = EmptyString \/ (exists r, rest = "/" ++ r) ->
  Str.startswith word "/" = false ->
  exists r, PosixPath.join (d ++ rest) word = d ++ "/" ++ r.
Proof.
  intros Hd Hslash Hrest Hstart. unfold PosixPath.join. rewrite Hstart.
  destruct (String.eqb (d ++ rest) EmptyString || Str.endswith (d ++ rest) "/")
    eqn:E.
  - destruct Hrest as [->|[r ->]].
    + rewrite append_nil_r in E.
      apply orb_true_iff in E as [E%String.eqb_eq|E]; congruence.
    + exists (r ++ word). now rewrite !append_assoc.
  - destruct Hrest as [->|[r ->]].
    + exists word. now rewrite append_nil_r.
    + exists (r ++ "/" ++ word). now rewrite !append_assoc.
Qed.

Lemma no_slash_startswith (word : string) :
  Str.contains "/" word = false -> Str.startswith word "/" = false.
Proof.
  intros Hword. unfold Str.startswith. destruct word as [|a r]; [reflexivity|].
  cbn -[ascii_dec]. cbn in Hword. apply orb_false_iff in Hword as [Ha _].
  destruct (ascii_dec "/" a) as [<-|]; [discriminate|reflexivity].
Qed.

Lemma translate_word_rooted (d rest word : string) :
  d <> EmptyString -> Str.endswith d "/" = false ->
  rest = EmptyString \/ (exists r, rest = "/" ++ r) ->
  exists rest',
    SimpleHTTPRequestHandler.translate_word (d ++ rest) word = d ++ rest' /\
    (rest' = EmptyString \/ exists r, rest' = "/" ++ r).
Proof.
  intros Hd Hslash Hrest. unfold SimpleHTTPRequestHandler.translate_word.
  destruct (String.eqb_spec (PosixPath.dirname word) EmptyString) as [Hdir|];
    cbn [negb orb]; [|now exists rest].
  destruct (String.eqb word "." || String.eqb word ".."); [now exists rest|].
  destruct (join_rooted d rest word Hd Hslash Hrest) as [r E].
  { apply no_slash_startswith. now apply dirname_empty. }
  exists ("/" ++ r). split; [exact E | right; now exists r].
Qed.

Lemma translate_words_rooted (d : string) (words : list string) (rest : string) :
  d <> EmptyString -> Str.endswith d "/" = false ->
  rest = EmptyString \/ (exists r, rest = "/" ++ r) ->
  exists rest',
    fold_left SimpleHTTPRequestHandler.translate_word words (d ++ rest)
      = d ++ rest' /\
    (rest' = EmptyString \/ exists r, rest' = "/" ++ r).
Proof.
  intros Hd Hslash. revert rest.
  induction words as [|word words IH]; intros rest Hrest; cbn.
  - now exists rest.
  - destruct (translate_word_rooted d rest word Hd Hslash Hrest)
      as (rest1 & -> & H1).
    now apply IH.
Qed.

Lemma translate_path_rooted (d path : string) :
  d <> EmptyString -> Str.endswith d "/" = false ->
  exists rest,
    SimpleHTTPRequestHandler.translate_path d path = d ++ rest /\
    (rest = EmptyString \/ exists r, rest = "/" ++ r).
Proof.
  intros Hd Hslash. unfold SimpleHTTPRequestHandler.translate_path.
  match goal with
  | |- context [fold_left _ ?ws d] =>
      destruct (translate_words_rooted d ws EmptyString Hd Hslash
                  (or_introl eq_refl)) as (rest & E & Hrest)
  end.
  rewrite append_nil_r in E. rewrite E.
  destruct (Str.endswith (Str.rstrip _ _) "/"); [|now exists rest].
  exists (rest ++ "/"). split; [now rewrite append_assoc|]. right.
  destruct Hrest as [->|[r ->]]; [now exists EmptyString|].
  exists (r ++ "/"). now rewrite append_assoc.
Qed.

Lemma confined_tail (r : string) : confined ("/" ++ r) -> confined r.
Proof.
  unfold confined. change ("/" ++ r) with (EmptyString ++ String "/" r).
  rewrite split_app_sep. intros H Hin. apply H. apply in_or_app. now right.
Qed.

Lemma below_intro (d f rest : string) :
  f = d ++ rest -> confined rest ->
  rest = EmptyString \/ (exists r, rest = "/" ++ r) ->
  below d f.
Proof.
  intros -> Hrest [->|[r ->]].
  - left. apply append_nil_r.
  - right. exists r. split; [reflexivity | now apply confined_tail].
Qed.

(** [translate_path] never leaves the directory, whatever [unquote] and
    [normpath] make of the path: the walk above is over any words. *)
Lemma translate_path_below (d path : string) :
  d <> EmptyString -> Str.endswith d "/" = false ->
  below d (SimpleHTTPRequestHandler.translate_path d path).
Proof.
  intros Hd Hslash.
  destruct (translate_path_confined d path) as (rest & E & Hrest).
  destruct (translate_path_rooted d path Hd Hslash) as (rest' & E' & Hrest').
  rewrite E in E'. apply append_inv_head in E' as <-.
  now apply (below_intro d _ rest).
Qed.

Lemma index_below (d path page : string) :
  d <> EmptyString -> Str.endswith d "/" = false ->
  Str.contains "/" page = false -> page <> ".." ->
  below d (PosixPath.join (SimpleHTTPRequestHandler.translate_path d path) page).
Proof.
  intros Hd Hslash Hpage Hdots.
  destruct (translate_path_confined d path) as (rest & E & Hrest).
  destruct (translate_path_rooted d path Hd Hslash) as (rest' & E' & Hrest').
  rewrite E in E'. apply append_inv_head in E' as <-. rewrite E.
  destruct (join_confined d rest page Hrest Hpage Hdots) as (rest1 & E1 & Hrest1).
  destruct (join_rooted d rest page Hd Hslash Hrest'
              (no_slash_startswith _ Hpage)) as (r & Er).
  rewrite E1 in Er. apply append_inv_head in Er as ->. rewrite E1.
  apply (below_intro d _ ("/" ++ r)); [reflexivity | exact Hrest1 |].
  right. now exists r.
Qed.

(** What [send_head] sends is the translated path, or an index page
    joined to it. *)
Lemma send_head_names {ip : UrlParse.IpLiteral} (w : Os.world) (s : state)
    (f : string) :
  fst (SimpleHTTPRequestHandler.send_head w s) = Ok (FileResponse f) \/
  fst (SimpleHTTPRequestHandler.send_head w s) = Ok (DirectoryListing f) ->
  f = SimpleHTTPRequestHandler.translate_path (Os.directory w) (self_path s) \/
  In f (map (PosixPath.join
               (SimpleHTTPRequestHandler.translate_path
                  (Os.directory w) (self_path s)))
            ["index.html"; "index.htm"]).
Proof.
  rewrite send_head_fst.
  set (path := SimpleHTTPRequestHandler.translate_path _ _).
  assert (Hfile : forall g r,
            fst (SimpleHTTPRequestHandler.send_file g w s) = Ok r ->
            r = FileResponse f \/ r = DirectoryListing f -> f = g).
  { intros g r Hr Hf.
    apply send_file_outcome in Hr as [->| ->];
      destruct Hf as [Hf|Hf]; congruence. }
  assert (Hlist : forall r,
            fst (SimpleHTTPRequestHandler.list_directory path w s) = Ok r ->
            r = FileResponse f \/ r = DirectoryListing f -> f = path).
  { intros r Hr Hf.
    apply list_directory_outcome in Hr as [->| ->];
      destruct Hf as [Hf|Hf]; congruence. }
  destruct (Os.isdir w _).
  - destruct (UrlParse.urlsplit (self_path s)) as [parts|];
      [|intros [H|H]; discriminate].
    destruct (negb _); [intros [H|H]; discriminate|].
    cbn [map find].
    destruct (Os.isfile w _).
    { intros [H|H]; right; left; symmetry; eapply Hfile; eauto. }
    destruct (Os.isfile w _).
    { intros [H|H]; right; right; left; symmetry; eapply Hfile; eauto. }
    intros [H|H]; left; eapply Hlist; eauto.
  - intros [H|H]; left; eapply Hfile; eauto.
Qed.

Lemma send_head_below {ip : UrlParse.IpLiteral} (w : Os.world) (s : state)
    (f : string) :
  Os.directory w <> EmptyString ->
  Str.endswith (Os.directory w) "/" = false ->
  fst (SimpleHTTPRequestHandler.send_head w s) = Ok (FileResponse f) \/
  fst (SimpleHTTPRequestHandler.send_head w s) = Ok (DirectoryListing f) ->
  below (Os.directory w) f.
Proof.
  intros Hd Hslash [->|[<-|[<-|[]]]]%send_head_names.
  - now apply translate_path_below.
  - apply index_below; try assumption; [reflexivity | discriminate].
  - apply index_below; try assumption; [reflexivity | discriminate].
Qed.

(** X3.  Whatever the target, a file or a directory listing that [do_GET]
    sends lies below the served directory [d] (a name other than the
    root, so one without a slash at its end): it is [d] itself, or [d],
    a slash and a relative name with no [..] component. *)
Theorem served_name_below_directory {ip : UrlParse.IpLiteral}
    (w : Os.world) (target f : string) :
  Os.directory w <> EmptyString ->
  Str.endswith (Os.directory w) "/" = false ->
  fst (SPAHandler.serve w target) = Ok (FileResponse f) \/
  fst (SPAHandler.serve w target) = Ok (DirectoryListing f) ->
  below (Os.directory w) f.
Proof.
  intros Hd Hslash.
  destruct (SPAHandler.request_path target) as [p|] eqn:Hp.
  - rewrite (do_GET_cases w _ _ Hp).
    destruct (_ || _); now apply send_head_below.
  - rewrite (do_GET_raises w _ Hp). intros [H|H]; discriminate.
Qed.

Lemma served_name_below_directory_witness :
  below "/srv/app" "/srv/app/index.html".
Proof.
  apply (served_name_below_directory (ip := UrlParse.unchecked_ip_literal)
           Worlds.site "/../../etc/passwd" "/srv/app/index.html").
  - discriminate.
  - reflexivity.
  - left. reflexivity.
Defined.

(** ** Exceptions *)

Section BracketFree.

Variable c : ascii.

Lemma contains_lstrip (p : ascii -> bool) (s : string) :
  Str.contains c s = false -> Str.contains c (Str.lstrip p s) = false.
Proof.
  induction s as [|a r IH]; simpl; [reflexivity|].
  destruct (p a); [|now simpl].
  intros [_ H]%orb_false_iff. now apply IH.
Qed.

Lemma contains_remove (x : ascii) (s : string) :
  Str.contains c s = false -> Str.contains c (Str.remove x s) = false.
Proof.
  induction s as [|a r IH]; simpl; [reflexivity|].
  intros [Ha Hr]%orb_false_iff.
  destruct (Ascii.eqb a x); simpl; [now apply IH|].
  now rewrite Ha, IH.
Qed.

Lemma contains_substring (n m : nat) (s : string) :
  Str.contains c s = false -> Str.contains c (String.substring n m s) = false.
Proof.
  revert n m. induction s as [|a r IH]; intros n m; simpl.
  - now destruct n, m.
  - intros [Ha Hr]%orb_false_iff.
    destruct n; [destruct m; simpl; [reflexivity|] | now apply IH].
    now rewrite Ha, IH.
Qed.

Lemma contains_split_scheme (url : string) :
  Str.contains c url = false ->
  Str.contains c (snd (UrlParse.split_scheme url)) = false.
Proof.
  intros H. unfold UrlParse.split_scheme.
  destruct (Str.partition ":" url) as [[[|a h] rest]|] eqn:P; simpl; try exact H.
  destruct (_ && _); simpl; [|exact H].
  apply partition_app in P. rewrite P, contains_app in H.
  apply orb_false_iff in H as [_ H]. simpl in H.
  now apply orb_false_iff in H as [_ H].
Qed.

Lemma contains_splitnetloc (url : string) :
  Str.contains c url = false ->
  Str.contains c (fst (UrlParse.splitnetloc url)) = false.
Proof.
  induction url as [|a r IH]; simpl; [reflexivity|].
  intros [Ha Hr]%orb_false_iff.
  destruct (UrlParse.netloc_delim a); [reflexivity|].
  destruct (UrlParse.splitnetloc r) as [n rest]. simpl in *.
  now rewrite Ha, IH.
Qed.

End BracketFree.

Section Rejection.

Context {ip : UrlParse.IpLiteral}.

(** [urlsplit] raises only on a bracket in the netloc. *)
Lemma urlsplit_bracket_free (target : string) :
  Str.contains "[" target = false ->
  Str.contains "]" target = false ->
  UrlParse.urlsplit target <> None.
Proof.
  intros Hl Hr. unfold UrlParse.urlsplit.
  set (url0 := UrlParse.remove_unsafe
                 (Str.lstrip UrlParse.c0_control_or_space target)).
  assert (H0 : forall c, Str.contains c target = false ->
                         Str.contains c url0 = false).
  { intros c H. unfold url0, UrlParse.remove_unsafe.
    now repeat apply contains_remove; apply contains_lstrip. }
  pose proof (contains_split_scheme "[" url0 (H0 _ Hl)) as Hl1.
  pose proof (contains_split_scheme "]" url0 (H0 _ Hr)) as Hr1.
  destruct (UrlParse.split_scheme url0) as [sch url1]. cbn [snd] in Hl1, Hr1.
  destruct (Str.startswith url1 "//").
  - pose proof (contains_splitnetloc "["
        (String.substring 2 (String.length url1 - 2) url1)
        (contains_substring _ _ _ _ Hl1)) as Hl2.
    pose proof (contains_splitnetloc "]"
        (String.substring 2 (String.length url1 - 2) url1)
        (contains_substring _ _ _ _ Hr1)) as Hr2.
    destruct (UrlParse.splitnetloc _) as [nl url2]. cbn [fst] in Hl2, Hr2.
    rewrite Hl2, Hr2. cbn [andb orb negb].
    destruct (Str.split1 "#" url2) as [u1 fr].
    now destruct (Str.split1 "?" u1).
  - cbn [andb].
    destruct (Str.split1 "#" url1) as [u1 fr].
    now destruct (Str.split1 "?" u1).
Qed.

Lemma urlparse_of_urlsplit (target : string) :
  UrlParse.urlsplit target <> None -> UrlParse.urlparse target <> None.
Proof.
  unfold UrlParse.urlparse.
  destruct (UrlParse.urlsplit target) as [r|]; [intros _|congruence].
  destruct (_ && _); [|discriminate].
  now destruct (UrlParse.splitparams (UrlParse.path r)).
Qed.

End Rejection.

(** X4.  A target that [urlparse] rejects makes [do_GET] raise
    [ValueError] at once: nothing is sent, no call reaches the file
    system and [self.path] is as it came.  Only a square bracket can cause
    this: a target with neither [[] nor []] is never rejected. *)
Theorem rejected_target_raises_at_once {ip : UrlParse.IpLiteral} :
  (forall w target,
     SPAHandler.request_path target = None ->
     SPAHandler.serve w target = (Raise ValueError, SPAHandler.request target)) /\
  (forall target,
     Str.contains "[" target = false ->
     Str.contains "]" target = false ->
     SPAHandler.request_path target <> None).
Proof.
  split.
  - intros w target. apply do_GET_raises.
  - intros target Hl Hr. unfold SPAHandler.request_path.
    pose proof (urlparse_of_urlsplit target (urlsplit_bracket_free target Hl Hr)).
    now destruct (UrlParse.urlparse target).
Qed.

Lemma rejected_target_raises_at_once_witness :
  SPAHandler.serve (ip := UrlParse.unchecked_ip_literal)
    Worlds.site "http://[::1/index.html" =
  (Raise ValueError, SPAHandler.request "http://[::1/index.html").
Proof.
  apply (proj1 (rejected_target_raises_at_once
                  (ip := UrlParse.unchecked_ip_literal))
           Worlds.site "http://[::1/index.html").
  reflexivity.
Defined.

(** ** The query string *)

Lemma partition_absent (c : ascii) (s : string) :
  Str.contains c s = false -> Str.partition c s = None.
Proof.
  induction s as [|a r IH]; simpl; [reflexivity|].
  destruct (Ascii.eqb a c); simpl; [discriminate|].
  intros H. now rewrite (IH H).
Qed.

Lemma partition_app_absent (c : ascii) (a b : string) :
  Str.contains c a = false ->
  Str.partition c (a ++ b) =
    match Str.partition c b with
    | Some (h, t) => Some (a ++ h, t)
    | None => None
    end.
Proof.
  induction a as [|x a IH]; simpl.
  - intros _. now destruct (Str.partition c b) as [[h t]|].
  - destruct (Ascii.eqb x c); simpl; [discriminate|].
    intros H. rewrite (IH H). now destruct (Str.partition c b) as [[h t]|].
Qed.

Lemma split1_absent (c : ascii) (s : string) :
  Str.contains c s = false -> Str.split1 c s = (s, EmptyString).
Proof. intros H. unfold Str.split1. now rewrite partition_absent. Qed.

Lemma split1_app_sep (c : ascii) (a b : string) :
  Str.contains c a = false -> fst (Str.split1 c (a ++ String c b)) = a.
Proof.
  intros H. unfold Str.split1. rewrite (partition_app_absent _ _ _ H).
  simpl. rewrite Ascii.eqb_refl. simpl. apply append_nil_r.
Qed.

(** The fragment is cut first; what is left of [p?q] is [p?q'] still. *)
Lemma split1_fragment_after_query (p q : string) :
  Str.contains "#" p = false ->
  exists q', fst (Str.split1 "#" (p ++ String "?" q)) = p ++ String "?" q'.
Proof.
  intros H. unfold Str.split1. rewrite (partition_app_absent _ _ _ H).
  simpl. destruct (Str.partition "#" q) as [[h t]|]; simpl; eauto.
Qed.

Lemma all_app (f : ascii -> bool) (a b : string) :
  Str.all f (a ++ b) = Str.all f a && Str.all f b.
Proof.
  induction a as [|x a IH]; simpl; [reflexivity|].
  now rewrite IH, andb_assoc.
Qed.

Lemma origin_form_app (p tail : string) (x : ascii) :
  x <> "/"%char ->
  Str.startswith p "/" = true ->
  Str.startswith p "//" = false ->
  Str.startswith (p ++ String x tail) "/" = true /\
  Str.startswith (p ++ String x tail) "//" = false.
Proof.
  intros Hx [r ->]%startswith_slash. unfold Str.startswith.
  destruct r as [|y r]; cbn -[ascii_dec].
  - intros _. destruct (ascii_dec "/" "/"); [|congruence].
    destruct (ascii_dec "/" x); [congruence|]. now split.
  - destruct (ascii_dec "/" "/"); [|congruence].
    destruct (ascii_dec "/" y); [|now split].
    intros H. destruct r; discriminate.
Qed.

Section Query.

Context {ip : UrlParse.IpLiteral}.

(** [urlparse] computes its path from the scheme and the path of
    [urlsplit]. *)
Lemma request_path_of_urlsplit (target : string) (r : UrlParse.ParseResult) :
  UrlParse.urlsplit target = Some r ->
  SPAHandler.request_path target =
    Some (if existsb (String.eqb (UrlParse.scheme r)) UrlParse.uses_params
             && Str.contains ";" (UrlParse.path r)
          then fst (UrlParse.splitparams (UrlParse.path r))
          else UrlParse.path r).
Proof.
  intros H. unfold SPAHandler.request_path, UrlParse.urlparse. rewrite H.
  destruct (_ && _); [|reflexivity].
  now destruct (UrlParse.splitparams (UrlParse.path r)).
Qed.

(** On an origin-form [p] with no [?] and no [#], [urlsplit] sees the
    same path in [p] and in [p?q], and [translate_path] the same file. *)
Lemma query_cut (p q : string) :
  Str.startswith p "/" = true ->
  Str.startswith p "//" = false ->
  is_word p = true ->
  is_word q = true ->
  Str.contains "?" p = false ->
  Str.contains "#" p = false ->
  (exists r r',
     UrlParse.urlsplit p = Some r /\
     UrlParse.urlsplit (p ++ "?" ++ q) = Some r' /\
     UrlParse.scheme r = UrlParse.scheme r' /\
     UrlParse.path r = UrlParse.path r') /\
  (forall d, SimpleHTTPRequestHandler.translate_path d (p ++ "?" ++ q) =
             SimpleHTTPRequestHandler.translate_path d p).
Proof.
  intros H1 H2 Hp Hq Hquery Hfrag. split.
  - destruct (origin_form_app p q "?" ltac:(discriminate) H1 H2) as [H1' H2'].
    assert (Hw : is_word (p ++ "?" ++ q) = true).
    { unfold is_word in *. rewrite all_app, Hp. cbn. exact Hq. }
    destruct (urlsplit_origin_form p H1 H2 Hp) as (r & Hr & Hs & Hpath).
    destruct (urlsplit_origin_form (p ++ "?" ++ q) H1' H2' Hw)
      as (r' & Hr' & Hs' & Hpath').
    exists r, r'. repeat split; try assumption; [congruence|].
    rewrite Hpath, Hpath'.
    rewrite (split1_absent "#" p Hfrag). cbn [fst].
    rewrite (split1_absent "?" p Hquery). cbn [fst].
    change (p ++ "?" ++ q) with (p ++ String "?" q).
    destruct (split1_fragment_after_query p q Hfrag) as [q' ->].
    symmetry. now apply split1_app_sep.
  - intros d. unfold SimpleHTTPRequestHandler.translate_path.
    change (p ++ "?" ++ q) with (p ++ String "?" q).
    now rewrite (split1_app_sep "?" p q Hquery), (split1_absent "?" p Hquery).
Qed.

End Query.

(** X6.  The query string plays no part in routing.  For an origin-form
    path [p] and any query [q], [p?q] has the request path of [p], makes
    the same calls of [os.path.exists], and is rewritten exactly when [p]
    is; kept, it keeps its query in [self.path]; rewritten, it loses it. *)
Theorem query_ignored_by_routing {ip : UrlParse.IpLiteral}
    (w : Os.world) (p q : string) :
  Str.startswith p "/" = true ->
  Str.startswith p "//" = false ->
  is_word p = true ->
  is_word q = true ->
  Str.contains "?" p = false ->
  Str.contains "#" p = false ->
  SPAHandler.request_path (p ++ "?" ++ q) = SPAHandler.request_path p /\
  SPAHandler.existence_checks w (p ++ "?" ++ q) = SPAHandler.existence_checks w p /\
  (SPAHandler.effective_path w p = p ->
   SPAHandler.effective_path w (p ++ "?" ++ q) = p ++ "?" ++ q) /\
  (SPAHandler.effective_path w p <> p ->
   SPAHandler.effective_path w (p ++ "?" ++ q) = "/").
Proof.
  intros H1 H2 Hp Hq Hquery Hfrag.
  destruct (query_cut p q H1 H2 Hp Hq Hquery Hfrag)
    as [(r & r' & Hr & Hr' & Hs & Hpath) _].
  assert (Hsame : SPAHandler.request_path (p ++ "?" ++ q)
                  = SPAHandler.request_path p).
  { rewrite (request_path_of_urlsplit _ _ Hr), (request_path_of_urlsplit _ _ Hr').
    now rewrite Hs, Hpath. }
  split; [exact Hsame|].
  destruct (SPAHandler.request_path p) as [x|] eqn:Hx;
    [|now rewrite (request_path_of_urlsplit _ _ Hr) in Hx].
  rewrite (existence_checks_cases w _ _ Hsame), (existence_checks_cases w _ _ Hx),
    (effective_path_cases w _ _ Hsame), (effective_path_cases w _ _ Hx).
  split; [reflexivity|].
  destruct (SPAHandler.is_asset x || String.eqb x "/" || Os.exists_ w ("." ++ x))
    eqn:Hkept.
  - split; [reflexivity | congruence].
  - split; [|reflexivity].
    intros <-. exfalso.
    assert (x = "/") as -> by (cbv in Hx; congruence).
    rewrite orb_true_r in Hkept. discriminate.
Qed.

Lemma query_ignored_by_routing_witness :
  SPAHandler.effective_path (ip := UrlParse.unchecked_ip_literal)
    Worlds.site ("/users/42" ++ "?" ++ "tab=posts&page=2") = "/".
Proof.
  apply (query_ignored_by_routing (ip := UrlParse.unchecked_ip_literal)
           Worlds.site "/users/42" "tab=posts&page=2");
    try reflexivity.
  discriminate.
Defined.

(** X7.  Nor does the query string change where the inherited handler
    looks: the [self.path] that [p?q] is served with translates to the
    same name as that of [p]; and when this name is no directory, so that
    the file of that name is sent or 404, the two answers are the same.
    (On a directory the query shows in the redirect and in the listing.) *)
Theorem query_ignored_by_lookup {ip : UrlParse.IpLiteral}
    (w : Os.world) (p q : string) :
  Str.startswith p "/" = true ->
  Str.startswith p "//" = false ->
  is_word p = true ->
  is_word q = true ->
  Str.contains "?" p = false ->
  Str.contains "#" p = false ->
  SimpleHTTPRequestHandler.translate_path (Os.directory w)
    (SPAHandler.effective_path w (p ++ "?" ++ q)) =
  SimpleHTTPRequestHandler.translate_path (Os.directory w)
    (SPAHandler.effective_path w p) /\
  (Os.isdir w (SimpleHTTPRequestHandler.translate_path (Os.directory w)
                 (SPAHandler.effective_path w p)) = false ->
   fst (SPAHandler.serve w (p ++ "?" ++ q)) = fst (SPAHandler.serve w p)).
Proof.
  intros H1 H2 Hp Hq Hquery Hfrag.
  destruct (query_cut p q H1 H2 Hp Hq Hquery Hfrag)
    as [(r & r' & Hr & Hr' & Hs & Hpath) Htranslate].
  assert (Hsame : SPAHandler.request_path (p ++ "?" ++ q)
                  = SPAHandler.request_path p).
  { rewrite (request_path_of_urlsplit _ _ Hr), (request_path_of_urlsplit _ _ Hr').
    now rewrite Hs, Hpath. }
  destruct (SPAHandler.request_path p) as [x|] eqn:Hx;
    [|now rewrite (request_path_of_urlsplit _ _ Hr) in Hx].
  rewrite (effective_path_cases w _ _ Hsame), (effective_path_cases w _ _ Hx).
  rewrite (do_GET_cases w _ _ Hsame), (do_GET_cases w _ _ Hx).
  assert (Hsend : forall log log',
            Os.isdir w (SimpleHTTPRequestHandler.translate_path
                          (Os.directory w) p) = false ->
            fst (SimpleHTTPRequestHandler.send_head w
                   {| self_path := p ++ "?" ++ q; calls := log |}) =
            fst (SimpleHTTPRequestHandler.send_head w
                   {| self_path := p; calls := log' |})).
  { intros log log' Hdir. rewrite !send_head_fst. cbn [self_path].
    rewrite Htranslate, Hdir. apply send_file_stateless. }
  destruct (SPAHandler.is_asset x || String.eqb x "/"); cbn [orb].
  - split; [apply Htranslate | apply Hsend].
  - destruct (Os.exists_ w ("." ++ x)).
    + split; [apply Htranslate | apply Hsend].
    + split; reflexivity.
Qed.

Lemma query_ignored_by_lookup_witness :
  SimpleHTTPRequestHandler.translate_path "/srv/app"
    (SPAHandler.effective_path (ip := UrlParse.unchecked_ip_literal)
       Worlds.site ("/assets/app.js" ++ "?" ++ "v=3")) =
  SimpleHTTPRequestHandler.translate_path "/srv/app"
    (SPAHandler.effective_path (ip := UrlParse.unchecked_ip_literal)
       Worlds.site "/assets/app.js").
Proof.
  apply (query_ignored_by_lookup (ip := UrlParse.unchecked_ip_literal)
           Worlds.site "/assets/app.js" "v=3"); reflexivity.
Defined.

(** ** The request path, character for character *)

Lemma fst_split1_before (c : ascii) (s : string) :
  fst (Str.split1 c s) = before (fun a => Ascii.eqb a c) s.
Proof.
  unfold Str.split1. induction s as [|a r IH]; cbn; [reflexivity|].
  destruct (Ascii.eqb a c); [reflexivity|].
  destruct (Str.partition c r) as [[h t]|]; cbn in *; congruence.
Qed.

Lemma before_before (f g : ascii -> bool) (s : string) :
  before f (before g s) = before (fun a => f a || g a) s.
Proof.
  induction s as [|a r IH]; cbn; [reflexivity|].
  destruct (g a); cbn; [now rewrite orb_true_r|].
  rewrite orb_false_r. destruct (f a); [reflexivity|]. now rewrite IH.
Qed.

(** Splitting off the fragment and then the query cuts before the first
    [?] or [#]. *)
Lemma path_before_query (t : string) :
  fst (Str.split1 "?" (fst (Str.split1 "#" t))) = without_query t.
Proof. rewrite !fst_split1_before. apply before_before. Qed.

Lemma without_params_no_slash (s : string) :
  Str.contains "/" s = false ->
  without_params s = before (fun a => Ascii.eqb a ";") s.
Proof.
  induction s as [|a r IH]; cbn; [reflexivity|].
  intros [_ Hr]%orb_false_iff. rewrite Hr.
  destruct (Ascii.eqb a ";"); [reflexivity|]. now rewrite IH.
Qed.

Lemma without_params_app (a b : string) :
  without_params (a ++ String "/" b) = a ++ String "/" (without_params b).
Proof.
  induction a as [|x a IH]; cbn [append without_params].
  - change (Ascii.eqb "/" ";") with false. now destruct (Str.contains "/" b).
  - rewrite contains_app. cbn [Str.contains].
    rewrite Ascii.eqb_refl, orb_true_r. now rewrite IH.
Qed.

Lemma without_params_whole (s : string) :
  Str.contains ";" s = false -> without_params s = s.
Proof.
  induction s as [|a r IH]; cbn; [reflexivity|].
  intros [Ha Hr]%orb_false_iff. rewrite Ha, (IH Hr).
  now destruct (Str.contains "/" r).
Qed.

Lemma rpartition_tail_free (c : ascii) (s h t : string) :
  Str.rpartition c s = Some (h, t) -> Str.contains c t = false.
Proof.
  revert h t. induction s as [|a r IH]; cbn; intros h t H; [discriminate|].
  destruct (Str.rpartition c r) as [[h' t']|] eqn:R.
  - injection H as _ <-. now apply (IH h').
  - destruct (Ascii.eqb a c); [|discriminate].
    injection H as _ <-. now apply rpartition_none.
Qed.

(** [_splitparams] cuts before the first [;] of the last segment. *)
Lemma splitparams_without (s : string) :
  fst (UrlParse.splitparams s) = without_params s.
Proof.
  unfold UrlParse.splitparams.
  destruct (Str.rpartition "/" s) as [[dir seg]|] eqn:R.
  - pose proof (rpartition_tail_free _ _ _ _ R) as Hseg.
    apply rpartition_app in R. subst s.
    rewrite without_params_app, (without_params_no_slash _ Hseg),
      <- fst_split1_before.
    unfold Str.split1.
    now destruct (Str.partition ";" seg) as [[name prm]|].
  - apply rpartition_none in R.
    rewrite (without_params_no_slash _ R), <- fst_split1_before.
    unfold Str.split1.
    now destruct (Str.partition ";" s) as [[name prm]|].
Qed.

Lemma lstrip_suffix (f : ascii -> bool) (s : string) :
  exists pre, s = pre ++ Str.lstrip f s.
Proof.
  induction s as [|a r [pre IH]]; cbn.
  - now exists EmptyString.
  - destruct (f a).
    + exists (String a pre). cbn. now f_equal.
    + now exists EmptyString.
Qed.

Lemma split_scheme_suffix (url : string) :
  exists pre, url = pre ++ snd (UrlParse.split_scheme url).
Proof.
  unfold UrlParse.split_scheme.
  destruct (Str.partition ":" url) as [[[|a h] rest]|] eqn:P; cbn [snd];
    try (now exists EmptyString).
  destruct (_ && _); cbn [snd]; [|now exists EmptyString].
  exists (String a h ++ ":"). rewrite append_assoc. now apply partition_app.
Qed.

Lemma splitnetloc_app (url : string) :
  url = fst (UrlParse.splitnetloc url) ++ snd (UrlParse.splitnetloc url).
Proof.
  induction url as [|a r IH]; cbn; [reflexivity|].
  destruct (UrlParse.netloc_delim a); [reflexivity|].
  destruct (UrlParse.splitnetloc r) as [n rest]. cbn in *. now f_equal.
Qed.

Lemma substring_empty (n : nat) (s : string) :
  String.substring n 0 s = EmptyString.
Proof. revert s. induction n; destruct s; cbn; auto. Qed.

Lemma substring_suffix (n : nat) (s : string) :
  exists pre, s = pre ++ String.substring n (String.length s - n) s.
Proof.
  destruct (Nat.le_gt_cases n (String.length s)) as [H|H].
  - eexists. now apply substring_cut.
  - exists s. replace (String.length s - n) with 0 by lia.
    now rewrite substring_empty, append_nil_r.
Qed.

Section Verbatim.

Context {ip : UrlParse.IpLiteral}.

(** Whatever the form of the target, [urlsplit] takes its path out of
    the target as it stands: the scheme and the netloc are cut off in
    front, the query and the fragment behind. *)
Lemma urlsplit_piece (target : string) (r : UrlParse.ParseResult) :
  is_word target = true ->
  UrlParse.urlsplit target = Some r ->
  verbatim_in (UrlParse.path r) target.
Proof.
  intros Hword.
  destruct (lstrip_suffix UrlParse.c0_control_or_space target) as [pre1 E1].
  assert (Hw : is_word (Str.lstrip UrlParse.c0_control_or_space target) = true).
  { unfold is_word in *. rewrite E1, all_app in Hword.
    now apply andb_true_iff in Hword as [_ H]. }
  unfold UrlParse.urlsplit. rewrite (word_remove_unsafe _ Hw).
  destruct (split_scheme_suffix
              (Str.lstrip UrlParse.c0_control_or_space target)) as [pre2 E2].
  destruct (UrlParse.split_scheme _) as [sch u0]. cbn [snd] in E2.
  destruct (if Str.startswith u0 "//" then _ else _) as [nl u] eqn:N.
  assert (E3 : exists pre3, u0 = pre3 ++ u).
  { destruct (Str.startswith u0 "//").
    - destruct (substring_suffix 2 u0) as [pre E].
      pose proof (splitnetloc_app
                    (String.substring 2 (String.length u0 - 2) u0)) as En.
      rewrite N in En. cbn [fst snd] in En.
      exists (pre ++ nl). rewrite append_assoc, <- En. exact E.
    - injection N as _ <-. now exists EmptyString. }
  destruct E3 as [pre3 E3].
  destruct (_ && _); [discriminate|].
  destruct (_ && _); [discriminate|].
  destruct (split1_prefix "#" u) as [rest1 R1].
  destruct (Str.split1 "#" u) as [u1 fr]. cbn [fst] in R1.
  destruct (split1_prefix "?" u1) as [rest2 R2].
  destruct (Str.split1 "?" u1) as [u2 q]. cbn [fst] in R2.
  intros [= <-]. cbn [UrlParse.path].
  exists (pre1 ++ pre2 ++ pre3), (rest2 ++ rest1).
  rewrite E1, E2, E3, R1, R2, !append_assoc. reflexivity.
Qed.

Lemma request_path_piece (target p : string) :
  is_word target = true ->
  SPAHandler.request_path target = Some p ->
  verbatim_in p target.
Proof.
  intros Hword (r & Hparse & <-)%request_path_parsed.
  destruct (urlparse_path _ _ Hparse) as (r0 & rest & Hsplit & E).
  destruct (urlsplit_piece _ _ Hword Hsplit) as (pre & post & Et).
  exists pre, (rest ++ post). rewrite E, append_assoc in Et. exact Et.
Qed.

(** Of an origin-form target [urlparse] keeps what stands before the
    first [?] or [#], less the parameters of the last segment. *)
Lemma request_path_origin_form (target : string) :
  Str.startswith target "/" = true ->
  Str.startswith target "//" = false ->
  is_word target = true ->
  SPAHandler.request_path target =
    Some (without_params (without_query target)).
Proof.
  intros H1 H2 H3.
  rewrite (request_path_of_urlsplit _ _
             (urlsplit_origin_form_parts target H1 H2 H3)).
  cbn [UrlParse.scheme UrlParse.path]. rewrite path_before_query.
  change (existsb (String.eqb EmptyString) UrlParse.uses_params) with true.
  cbn [andb].
  destruct (Str.contains ";" _) eqn:E;
    [now rewrite splitparams_without | now rewrite without_params_whole].
Qed.

End Verbatim.

(** C6, as the code has it.  The path the routing works on is the [path]
    field of [urlparse(self.path)], taken as it stands.  It holds no [?]
    and no [#].  It is a piece of the target, character for character, so
    no percent escape is decoded, whatever the form of the target.  For
    an origin-form target (one leading slash) it is the target cut before
    its first [?] or [#], and then before the first [;] of its last
    segment.  And both the asset test and the one call of
    [os.path.exists] are made on this path. *)
Theorem request_path_is_raw_path_component {ip : UrlParse.IpLiteral} :
  (forall target p,
     SPAHandler.request_path target = Some p ->
     Str.contains "?" p = false /\ Str.contains "#" p = false) /\
  (forall target p,
     is_word target = true ->
     SPAHandler.request_path target = Some p ->
     verbatim_in p target) /\
  (forall target,
     Str.startswith target "/" = true ->
     Str.startswith target "//" = false ->
     is_word target = true ->
     SPAHandler.request_path target =
       Some (without_params (without_query target))) /\
  (forall w target p,
     SPAHandler.request_path target = Some p ->
     SPAHandler.effective_path w target =
       (if SPAHandler.is_asset p || String.eqb p "/" || Os.exists_ w ("." ++ p)
        then target else "/") /\
     SPAHandler.existence_checks w target =
       (if SPAHandler.is_asset p || String.eqb p "/" then []
        else [Os.Exists ("." ++ p)])).
Proof.
  split; [|split; [|split]].
  - intros target p (r & Hparse & <-)%request_path_parsed.
    destruct (urlparse_path _ _ Hparse) as (r0 & rest & Hsplit & E).
    destruct (urlsplit_path_free _ _ Hsplit) as [Q F].
    rewrite E in Q, F. split; eapply contains_prefix; eassumption.
  - exact request_path_piece.
  - exact request_path_origin_form.
  - intros w target p Hp. split.
    + now apply effective_path_cases.
    + now apply existence_checks_cases.
Qed.

Lemma request_path_is_raw_path_component_witness :
  SPAHandler.request_path (ip := UrlParse.unchecked_ip_literal)
    "/a%20b;v=1/c;w=2?x=1#top" = Some "/a%20b;v=1/c" /\
  verbatim_in "/a%20b" "http://example.org/a%20b?x=1".
Proof.
  split.
  - apply (proj1 (proj2 (proj2 (request_path_is_raw_path_component
                                  (ip := UrlParse.unchecked_ip_literal))))
             "/a%20b;v=1/c;w=2?x=1#top"); reflexivity.
  - apply (proj1 (proj2 (request_path_is_raw_path_component
                           (ip := UrlParse.unchecked_ip_literal)))
             "http://example.org/a%20b?x=1" "/a%20b"); reflexivity.
Defined.

(** C6 as stated fails on a percent escape.  For [/a%20b] the routing
    works on [/a%20b], not on the decoded [/a b]: the file [a b] is on
    disk, yet the call is [os.path.exists("./a%20b")], it fails, and the
    request is sent to ["/"]. *)
Lemma request_path_not_decoded :
  SPAHandler.request_path (ip := UrlParse.unchecked_ip_literal) "/a%20b"
    = Some "/a%20b" /\
  decoded_request_path (ip := UrlParse.unchecked_ip_literal) "/a%20b"
    = Some "/a b" /\
  SPAHandler.request_path (ip := UrlParse.unchecked_ip_literal) "/a%20b"
    <> decoded_request_path (ip := UrlParse.unchecked_ip_literal) "/a%20b" /\
  Os.exists_ Worlds.site "./a b" = true /\
  SPAHandler.existence_checks (ip := UrlParse.unchecked_ip_literal)
    Worlds.site "/a%20b" = [Os.Exists "./a%20b"] /\
  SPAHandler.effective_path (ip := UrlParse.unchecked_ip_literal)
    Worlds.site "/a%20b" = "/".
Proof. repeat split. discriminate. Qed.

(** ** [GET] and [HEAD] *)

(** X8.  A [GET] request that is not rewritten gets the answer a [HEAD]
    request for the same target gets: both come from [send_head] on the
    same [self.path]. *)
Theorem get_answers_like_head_unless_rewritten {ip : UrlParse.IpLiteral}
    (w : Os.world) (target p : string) :
  SPAHandler.request_path target = Some p ->
  SPAHandler.effective_path w target = target ->
  fst (SPAHandler.handle_command "GET" w (SPAHandler.request target)) =
  fst (SPAHandler.handle_command "HEAD" w (SPAHandler.request target)).
Proof.
  intros Hp Hkept.
  change (SPAHandler.handle_command "GET" w (SPAHandler.request target))
    with (SPAHandler.serve w target).
  change (SPAHandler.handle_command "HEAD" w (SPAHandler.request target))
    with (SimpleHTTPRequestHandler.send_head w (SPAHandler.request target)).
  rewrite (effective_path_cases w _ _ Hp) in Hkept.
  destruct (SPAHandler.is_asset p || String.eqb p "/" || Os.exists_ w ("." ++ p))
    eqn:Hb.
  - destruct (kept_runs_target w _ _ Hp Hb) as [log ->].
    now apply send_head_log.
  - exfalso. subst target.
    assert (p = "/") as -> by (cbv in Hp; congruence).
    apply orb_false_iff in Hb as [[_ Hb]%orb_false_iff _]. discriminate.
Qed.

Lemma get_answers_like_head_unless_rewritten_witness :
  fst (SPAHandler.handle_command (ip := UrlParse.unchecked_ip_literal) "GET"
         Worlds.site (SPAHandler.request "/docs")) =
  fst (SPAHandler.handle_command (ip := UrlParse.unchecked_ip_literal) "HEAD"
         Worlds.site (SPAHandler.request "/docs")).
Proof.
  apply (get_answers_like_head_unless_rewritten
           (ip := UrlParse.unchecked_ip_literal) Worlds.site "/docs" "/docs");
    reflexivity.
Defined.

(** ** Plain paths *)

Lemma all_excludes (f : ascii -> bool) (c : ascii) (s : string) :
  f c = false -> Str.all f s = true -> Str.contains c s = false.
Proof.
  intros Hc. induction s as [|a r IH]; simpl; [reflexivity|].
  intros [Ha Hr]%andb_true_iff. rewrite (IH Hr), orb_false_r.
  destruct (Ascii.eqb_spec a c) as [->|]; [congruence|reflexivity].
Qed.

Lemma all_impl (f g : ascii -> bool) (s : string) :
  (forall a, f a = true -> g a = true) ->
  Str.all f s = true -> Str.all g s = true.
Proof.
  intros Hfg. induction s as [|a r IH]; simpl; [reflexivity|].
  intros [Ha Hr]%andb_true_iff. now rewrite (Hfg a Ha), IH.
Qed.

Lemma plain_char_not_space (a : ascii) :
  plain_char a = true -> negb (Str.isspace a) = true.
Proof.
  unfold plain_char. intros H%negb_true_iff.
  repeat apply orb_false_iff in H as [H ?]. now apply negb_true_iff.
Qed.

Lemma plain_segment_inv (seg : string) :
  plain_segment seg = true ->
  seg <> EmptyString /\ seg <> "." /\ seg <> ".." /\
  Str.all plain_char seg = true.
Proof.
  unfold plain_segment.
  intros [[[H1%negb_true_iff H2%negb_true_iff]%andb_true_iff
            H3%negb_true_iff]%andb_true_iff H4]%andb_true_iff.
  repeat split; try assumption; now apply String.eqb_neq.
Qed.

Lemma path_of_all (f : ascii -> bool) (segs : list string) :
  f "/"%char = true ->
  Forall (fun seg => Str.all f seg = true) segs ->
  Str.all f (path_of segs) = true.
Proof.
  intros Hslash. induction 1 as [|seg segs Hseg _ IH]; [reflexivity|].
  cbn [path_of]. change ("/" ++ seg ++ path_of segs)
    with (String "/" (seg ++ path_of segs)).
  cbn [Str.all]. now rewrite Hslash, all_app, Hseg, IH.
Qed.

Lemma plain_path_all (segs : list string) :
  Forall (fun seg => plain_segment seg = true) segs ->
  Forall (fun seg => Str.all plain_char seg = true) segs.
Proof.
  apply Forall_impl. intros seg H. now apply plain_segment_inv in H.
Qed.

(** A path of plain segments holds none of [% ? # ;] and no NUL, and is
    a word. *)
Lemma plain_path_free (c : ascii) (segs : list string) :
  c <> "/"%char -> plain_char c = false ->
  Forall (fun seg => plain_segment seg = true) segs ->
  Str.contains c (path_of segs) = false.
Proof.
  intros Hc Hplain Hsegs.
  apply (all_excludes (fun a => plain_char a || Ascii.eqb a "/")).
  - rewrite Hplain. now apply Ascii.eqb_neq.
  - apply path_of_all; [reflexivity|].
    eapply Forall_impl; [|apply plain_path_all, Hsegs].
    intros seg. apply all_impl. intros a ->. reflexivity.
Qed.

Lemma plain_path_word (segs : list string) :
  Forall (fun seg => plain_segment seg = true) segs ->
  is_word (path_of segs) = true.
Proof.
  intros Hsegs. unfold is_word. apply path_of_all; [reflexivity|].
  eapply Forall_impl; [|apply plain_path_all, Hsegs].
  intros seg. apply all_impl, plain_char_not_space.
Qed.

Lemma plain_segment_no_slash (seg : string) :
  plain_segment seg = true -> Str.contains "/" seg = false.
Proof.
  intros (_ & _ & _ & H)%plain_segment_inv.
  now apply (all_excludes plain_char).
Qed.

Lemma unquote_no_percent (s : string) :
  Str.contains "%" s = false -> UrlParse.unquote s = s.
Proof.
  induction s as [|a r IH]; [reflexivity|].
  cbn [Str.contains UrlParse.unquote].
  destruct (Ascii.eqb a "%"); cbn [orb]; [discriminate|].
  intros H. now rewrite (IH H).
Qed.

Lemma rstrip_word (s : string) :
  is_word s = true -> Str.rstrip Str.isspace s = s.
Proof.
  unfold is_word. induction s as [|a r IH]; [reflexivity|].
  cbn [Str.all Str.rstrip]. intros [Ha%negb_true_iff Hr]%andb_true_iff.
  rewrite (IH Hr), Ha. now destruct r.
Qed.

Lemma startswith_same (a : ascii) (r : string) :
  Str.startswith (String a r) (String a EmptyString) = true.
Proof.
  unfold Str.startswith. cbn -[ascii_dec].
  destruct (ascii_dec a a); [now destruct r | congruence].
Qed.

Lemma split_segment_path (seg : string) (segs : list string) :
  Str.contains "/" seg = false ->
  Forall (fun s => Str.contains "/" s = false) segs ->
  Str.split "/" (seg ++ path_of segs) = seg :: segs.
Proof.
  intros Hseg Hsegs. revert seg Hseg.
  induction Hsegs as [|s2 segs Hs2 _ IH]; intros seg Hseg; cbn [path_of].
  - rewrite append_nil_r. now apply split_no_sep.
  - change (seg ++ "/" ++ s2 ++ path_of segs)
      with (seg ++ String "/" (s2 ++ path_of segs)).
    now rewrite split_app_sep, (split_no_sep _ _ Hseg), (IH _ Hs2).
Qed.

Lemma split_path_of (segs : list string) :
  Forall (fun s => Str.contains "/" s = false) segs ->
  Str.split "/" (path_of segs) = EmptyString :: segs.
Proof.
  intros H. now apply (split_segment_path EmptyString segs).
Qed.

Lemma concat_path_of (seg : string) (segs : list string) :
  "/" ++ String.concat "/" (seg :: segs) = path_of (seg :: segs).
Proof.
  revert seg. induction segs as [|s2 segs IH]; intros seg.
  - cbn. now rewrite append_nil_r.
  - change (String.concat "/" (seg :: s2 :: segs))
      with (seg ++ "/" ++ String.concat "/" (s2 :: segs)).
    change (path_of (seg :: s2 :: segs))
      with ("/" ++ seg ++ path_of (s2 :: segs)).
    now rewrite <- (IH s2).
Qed.

Lemma normpath_fold_plain (segs acc : list string) :
  Forall (fun seg => plain_segment seg = true) segs ->
  fold_left (PosixPath.normpath_step 1) segs acc = (acc ++ segs)%list.
Proof.
  intros H. revert acc. induction H as [|seg segs Hseg _ IH]; intros acc; cbn.
  - now rewrite app_nil_r.
  - destruct (plain_segment_inv _ Hseg)
      as (H1%String.eqb_neq & H2%String.eqb_neq & H3%String.eqb_neq & _).
    unfold PosixPath.normpath_step at 2. rewrite H1, H2, H3. cbn [orb negb].
    rewrite IH, <- app_assoc. reflexivity.
Qed.

(** A path of plain segments does not end in a slash, whatever stands
    before it. *)
Lemma endswith_no_slash_tail (a seg : string) :
  seg <> EmptyString -> Str.contains "/" seg = false ->
  Str.endswith (a ++ seg) "/" = false.
Proof.
  intros Hne Hseg. destruct (Str.endswith (a ++ seg) "/") eqn:E; [|reflexivity].
  apply endswith_inv in E as [r E].
  destruct (app_tail_slash _ _ _ E Hne) as [r0 ->].
  rewrite contains_app in Hseg. cbn in Hseg.
  now rewrite orb_true_r in Hseg.
Qed.

Lemma endswith_plain_path (a seg : string) (segs : list string) :
  Forall (fun s => plain_segment s = true) (seg :: segs) ->
  Str.endswith (a ++ path_of (seg :: segs)) "/" = false.
Proof.
  revert a seg. induction segs as [|s2 segs IH]; intros a seg H.
  - inversion H as [|? ? Hseg _]; subst. cbn [path_of].
    rewrite append_nil_r, <- append_assoc.
    apply endswith_no_slash_tail.
    + now apply plain_segment_inv in Hseg.
    + now apply plain_segment_no_slash.
  - inversion H as [|? ? Hseg Hrest]; subst.
    change (path_of (seg :: s2 :: segs))
      with ("/" ++ seg ++ path_of (s2 :: segs)).
    rewrite <- !append_assoc. now apply IH.
Qed.

Lemma plain_path_no_slash (segs : list string) :
  Forall (fun seg => plain_segment seg = true) segs ->
  Forall (fun s => Str.contains "/" s = false) segs.
Proof. apply Forall_impl. intros seg. apply plain_segment_no_slash. Qed.

Lemma plain_path_no_trailing_slash (seg : string) (segs : list string) :
  Forall (fun s => plain_segment s = true) (seg :: segs) ->
  Str.endswith (path_of (seg :: segs)) "/" = false.
Proof. intros H. exact (endswith_plain_path EmptyString seg segs H). Qed.

(** A path of plain segments starts with one slash, not two. *)
Lemma plain_path_origin_form (seg : string) (segs : list string) :
  Forall (fun s => plain_segment s = true) (seg :: segs) ->
  Str.startswith (path_of (seg :: segs)) "/" = true /\
  Str.startswith (path_of (seg :: segs)) "//" = false.
Proof.
  intros H. inversion H as [|? ? Hseg _]; subst.
  pose proof (plain_segment_no_slash _ Hseg) as Hslash.
  apply plain_segment_inv in Hseg as (Hne & _).
  destruct seg as [|y seg]; [congruence|].
  cbn in Hslash. apply orb_false_iff in Hslash as [Hy _].
  split; [apply startswith_same|].
  unfold Str.startswith. cbn -[ascii_dec].
  destruct (ascii_dec "/" "/"); [|reflexivity].
  destruct (ascii_dec "/" y) as [<-|]; [discriminate|reflexivity].
Qed.

Lemma normpath_fold_components (segs : list string) :
  Forall (fun seg => plain_segment seg = true) segs ->
  fold_left (PosixPath.normpath_step 1) (EmptyString :: segs) [] = segs.
Proof.
  intros H.
  change (fold_left (PosixPath.normpath_step 1) (EmptyString :: segs) [])
    with (fold_left (PosixPath.normpath_step 1) segs []).
  apply (normpath_fold_plain segs [] H).
Qed.

(** [normpath] has nothing to do on such a path. *)
Lemma normpath_plain (seg : string) (segs : list string) :
  Forall (fun s => plain_segment s = true) (seg :: segs) ->
  PosixPath.normpath (path_of (seg :: segs)) = path_of (seg :: segs).
Proof.
  intros H. destruct (plain_path_origin_form seg segs H) as [H1 H2].
  assert (Hne : String.eqb (path_of (seg :: segs)) EmptyString = false)
    by reflexivity.
  unfold PosixPath.normpath.
  rewrite Hne, H1, H2, (split_path_of _ (plain_path_no_slash _ H)).
  cbv beta iota zeta delta [andb].
  rewrite (normpath_fold_components _ H).
  change (Str.join EmptyString (repeat "/" 1) ++ Str.join "/" (seg :: segs))
    with ("/" ++ String.concat "/" (seg :: segs)).
  now rewrite concat_path_of, Hne.
Qed.

(** The loop of [translate_path] appends the segments one by one. *)
Lemma translate_words_plain (segs : list string) (acc : string) :
  acc <> EmptyString ->
  Str.endswith acc "/" = false ->
  Forall (fun s => plain_segment s = true) segs ->
  fold_left SimpleHTTPRequestHandler.translate_word segs acc
    = acc ++ path_of segs.
Proof.
  intros Hne Hend H. revert acc Hne Hend.
  induction H as [|seg segs Hseg _ IH]; intros acc Hne Hend; cbn [fold_left path_of].
  - now rewrite append_nil_r.
  - pose proof (plain_segment_no_slash _ Hseg) as Hslash.
    destruct (plain_segment_inv _ Hseg)
      as (H1 & H2%String.eqb_neq & H3%String.eqb_neq & _).
    assert (Hstep : SimpleHTTPRequestHandler.translate_word acc seg
                    = acc ++ "/" ++ seg).
    { unfold SimpleHTTPRequestHandler.translate_word.
      rewrite (dirname_no_slash _ Hslash), H2, H3. cbn [String.eqb negb orb].
      unfold PosixPath.join.
      assert (Hstart : Str.startswith seg "/" = false).
      { unfold Str.startswith. destruct seg as [|y seg]; [reflexivity|].
        cbn -[ascii_dec]. cbn in Hslash. apply orb_false_iff in Hslash as [Hy _].
        destruct (ascii_dec "/" y) as [<-|]; [discriminate|reflexivity]. }
      rewrite Hstart, Hend, orb_false_r.
      apply String.eqb_neq in Hne. now rewrite Hne. }
    rewrite Hstep, IH.
    + now rewrite !append_assoc.
    + destruct acc; discriminate.
    + rewrite <- append_assoc. now apply endswith_no_slash_tail.
Qed.

(** For a path of plain segments, [translate_path] is the directory
    followed by the path. *)
Lemma translate_path_plain (d : string) (segs : list string) :
  d <> EmptyString ->
  Str.endswith d "/" = false ->
  Forall (fun s => plain_segment s = true) segs ->
  SimpleHTTPRequestHandler.translate_path d (path_of segs) = d ++ path_of segs.
Proof.
  intros Hne Hend H. destruct segs as [|seg segs].
  - cbn [path_of]. now rewrite append_nil_r.
  - unfold SimpleHTTPRequestHandler.translate_path.
    rewrite (split1_absent "?") by (apply plain_path_free; auto; discriminate).
    cbn [fst].
    rewrite (split1_absent "#") by (apply plain_path_free; auto; discriminate).
    cbn [fst].
    rewrite (rstrip_word _ (plain_path_word _ H)).
    rewrite (plain_path_no_trailing_slash seg segs H).
    rewrite unquote_no_percent by (apply plain_path_free; auto; discriminate).
    rewrite (normpath_plain _ _ H).
    rewrite (split_path_of _ (plain_path_no_slash _ H)).
    assert (Hfilter : filter (fun w => negb (String.eqb w EmptyString))
                        (EmptyString :: seg :: segs)
                      = seg :: segs).
    { change (filter (fun w => negb (String.eqb w EmptyString))
                (EmptyString :: seg :: segs))
        with (filter (fun w => negb (String.eqb w EmptyString)) (seg :: segs)).
      apply forallb_filter_id. apply forallb_forall. intros s Hs.
      rewrite Forall_forall in H. apply H, plain_segment_inv in Hs as (Hs & _).
      apply String.eqb_neq in Hs. now rewrite Hs. }
    rewrite Hfilter. now apply translate_words_plain.
Qed.

Section PlainRequest.

Context {ip : UrlParse.IpLiteral}.

(** [urlparse] and [urlsplit] return such a path whole. *)
Lemma urlsplit_plain (seg : string) (segs : list string) :
  Forall (fun s => plain_segment s = true) (seg :: segs) ->
  exists r,
    UrlParse.urlsplit (path_of (seg :: segs)) = Some r /\
    UrlParse.scheme r = EmptyString /\
    UrlParse.path r = path_of (seg :: segs).
Proof.
  intros H. destruct (plain_path_origin_form seg segs H) as [H1 H2].
  destruct (urlsplit_origin_form _ H1 H2 (plain_path_word _ H))
    as (r & Hr & Hs & Hpath).
  exists r. repeat split; try assumption.
  rewrite Hpath.
  rewrite (split1_absent "#") by (apply plain_path_free; auto; discriminate).
  cbn [fst].
  rewrite (split1_absent "?") by (apply plain_path_free; auto; discriminate).
  reflexivity.
Qed.


(** A plain path is not ["/"]. *)
Lemma plain_path_not_root (seg : string) (segs : list string) :
  Forall (fun s => plain_segment s = true) (seg :: segs) ->
  String.eqb (path_of (seg :: segs)) "/" = false.
Proof.
  intros H. apply String.eqb_neq. intros E.
  pose proof (plain_path_no_trailing_slash seg segs H) as Hs.
  rewrite E in Hs. discriminate.
Qed.


Lemma request_path_plain (seg : string) (segs : list string) :
  Forall (fun s => plain_segment s = true) (seg :: segs) ->
  SPAHandler.request_path (path_of (seg :: segs)) = Some (path_of (seg :: segs)).
Proof.
  intros H. destruct (urlsplit_plain seg segs H) as (r & Hr & Hs & Hpath).
  rewrite (request_path_of_urlsplit _ _ Hr), Hpath.
  rewrite (plain_path_free ";") by (auto; discriminate).
  now rewrite andb_false_r.
Qed.

End PlainRequest.

(** ** The answer when the fallback document is missing *)




(** ** Plain paths through [do_GET] *)

(** X9.  On a plain path (segments of plain characters, none empty, [.]
    or [..]) routing and serving look at the same name: the request path
    is the path itself and the inherited handler translates it to the
    served directory followed by the path.  When the path is no asset,
    [os.path.exists] is asked once, about ["."] followed by the path;
    when it is an asset, [os.path.exists] is not asked at all. *)
Theorem plain_path_checked_where_served {ip : UrlParse.IpLiteral}
    (d seg : string) (segs : list string) :
  d <> EmptyString ->
  Str.endswith d "/" = false ->
  Forall (fun s => plain_segment s = true) (seg :: segs) ->
  SPAHandler.request_path (path_of (seg :: segs)) = Some (path_of (seg :: segs)) /\
  SimpleHTTPRequestHandler.translate_path d (path_of (seg :: segs))
    = d ++ path_of (seg :: segs) /\
  (SPAHandler.is_asset (path_of (seg :: segs)) = false ->
   forall w, SPAHandler.existence_checks w (path_of (seg :: segs))
             = [Os.Exists ("." ++ path_of (seg :: segs))]) /\
  (SPAHandler.is_asset (path_of (seg :: segs)) = true ->
   forall w, SPAHandler.existence_checks w (path_of (seg :: segs)) = []).
Proof.
  intros Hne Hend H.
  pose proof (request_path_plain seg segs H) as Hp.
  split; [exact Hp|]. split; [now apply translate_path_plain|].
  split; intros Hasset w; rewrite (existence_checks_cases w _ _ Hp), Hasset.
  - now rewrite (plain_path_not_root seg segs H).
  - reflexivity.
Qed.

Lemma plain_path_checked_where_served_witness :
  SimpleHTTPRequestHandler.translate_path "/srv/app"
    (path_of ["docs"; "guide-2.html"]) = "/srv/app/docs/guide-2.html" /\
  SPAHandler.existence_checks (ip := UrlParse.unchecked_ip_literal)
    Worlds.site (path_of ["docs"; "guide-2.html"])
    = [Os.Exists "./docs/guide-2.html"].
Proof.
  destruct (plain_path_checked_where_served (ip := UrlParse.unchecked_ip_literal)
              "/srv/app" "docs" ["guide-2.html"])
    as (_ & Htranslate & Hchecked & _).
  - discriminate.
  - reflexivity.
  - repeat constructor.
  - split; [exact Htranslate | now apply Hchecked].
Defined.





(** ** Where the check and the handler part: [..] *)

Lemma path_chars_free (c : ascii) (segs : list string) :
  c <> "/"%char -> plain_char c = false ->
  Forall (fun seg => Str.all plain_char seg = true) segs ->
  Str.contains c (path_of segs) = false.
Proof.
  intros Hc Hplain Hsegs.
  apply (all_excludes (fun a => plain_char a || Ascii.eqb a "/")).
  - rewrite Hplain. now apply Ascii.eqb_neq.
  - apply path_of_all; [reflexivity|].
    eapply Forall_impl; [|exact Hsegs].
    intros seg. apply all_impl. intros a ->. reflexivity.
Qed.

Lemma path_chars_word (segs : list string) :
  Forall (fun seg => Str.all plain_char seg = true) segs ->
  is_word (path_of segs) = true.
Proof.
  intros Hsegs. unfold is_word. apply path_of_all; [reflexivity|].
  eapply Forall_impl; [|exact Hsegs].
  intros seg. apply all_impl, plain_char_not_space.
Qed.

(** An origin-form target with no [?], [#] or [;] is its own request
    path. *)
Lemma request_path_whole {ip : UrlParse.IpLiteral} (t : string) :
  Str.startswith t "/" = true ->
  Str.startswith t "//" = false ->
  is_word t = true ->
  Str.contains "?" t = false ->
  Str.contains "#" t = false ->
  Str.contains ";" t = false ->
  SPAHandler.request_path t = Some t.
Proof.
  intros H1 H2 Hw Hq Hf Hs.
  destruct (urlsplit_origin_form t H1 H2 Hw) as (r & Hr & _ & Hpath).
  rewrite (split1_absent "#" t Hf) in Hpath. cbn [fst] in Hpath.
  rewrite (split1_absent "?" t Hq) in Hpath. cbn [fst] in Hpath.
  rewrite (request_path_of_urlsplit _ _ Hr), Hpath, Hs.
  now rewrite andb_false_r.
Qed.

(** The words of a path of plain segments, joined to the directory. *)
Lemma translate_plain_words (d seg : string) (segs : list string) :
  d <> EmptyString ->
  Str.endswith d "/" = false ->
  Forall (fun s => plain_segment s = true) (seg :: segs) ->
  fold_left SimpleHTTPRequestHandler.translate_word
    (filter (fun w => negb (String.eqb w EmptyString))
       (Str.split "/" (path_of (seg :: segs)))) d
  = d ++ path_of (seg :: segs).
Proof.
  intros Hne Hend H.
  rewrite (split_path_of _ (plain_path_no_slash _ H)).
  change (filter (fun w => negb (String.eqb w EmptyString))
            (EmptyString :: seg :: segs))
    with (filter (fun w => negb (String.eqb w EmptyString)) (seg :: segs)).
  rewrite forallb_filter_id; [now apply translate_words_plain|].
  apply forallb_forall. intros s Hs.
  rewrite Forall_forall in H. apply H, plain_segment_inv in Hs as (Hs & _).
  apply String.eqb_neq in Hs. now rewrite Hs.
Qed.

(** [normpath] drops a leading [/..]. *)
Lemma normpath_dotdot (seg : string) (segs : list string) :
  Forall (fun s => plain_segment s = true) (seg :: segs) ->
  PosixPath.normpath (path_of (".." :: seg :: segs)) = path_of (seg :: segs).
Proof.
  intros H.
  assert (Hslash : Forall (fun s => Str.contains "/" s = false)
                     (".." :: seg :: segs)).
  { constructor; [reflexivity | now apply plain_path_no_slash]. }
  unfold PosixPath.normpath.
  change (String.eqb (path_of (".." :: seg :: segs)) EmptyString) with false.
  change (Str.startswith (path_of (".." :: seg :: segs)) "/")
    with (Str.startswith (String "/" (".." ++ path_of (seg :: segs))) "/").
  rewrite startswith_same.
  assert (H2 : Str.startswith (path_of (".." :: seg :: segs)) "//" = false).
  { unfold Str.startswith. cbn -[ascii_dec].
    destruct (ascii_dec "/" "/"); [|reflexivity].
    now destruct (ascii_dec "/" "."). }
  rewrite H2, (split_path_of _ Hslash).
  cbv beta iota zeta delta [andb].
  change (fold_left (PosixPath.normpath_step 1)
            (EmptyString :: ".." :: seg :: segs) [])
    with (fold_left (PosixPath.normpath_step 1) (seg :: segs) []).
  rewrite (normpath_fold_plain _ [] H). cbn [app].
  change (Str.join EmptyString (repeat "/" 1) ++ Str.join "/" (seg :: segs))
    with ("/" ++ String.concat "/" (seg :: segs)).
  rewrite concat_path_of.
  now change (String.eqb (path_of (seg :: segs)) EmptyString) with false.
Qed.

(** X13.  The existence check is made on the path as it came, the file is
    looked up on the normalised path, and with [..] the two part: for
    [/..] followed by a plain path [p], [os.path.exists] is asked about
    [./..] followed by [p], a name outside the served directory, while
    the inherited handler translates the target to the directory followed
    by [p]. *)
Theorem dotdot_checked_outside_served_inside {ip : UrlParse.IpLiteral}
    (w : Os.world) (seg : string) (segs : list string) :
  Os.directory w <> EmptyString ->
  Str.endswith (Os.directory w) "/" = false ->
  Forall (fun s => plain_segment s = true) (seg :: segs) ->
  SPAHandler.is_asset ("/.." ++ path_of (seg :: segs)) = false ->
  SPAHandler.existence_checks w ("/.." ++ path_of (seg :: segs))
    = [Os.Exists ("./.." ++ path_of (seg :: segs))] /\
  (SPAHandler.effective_path w ("/.." ++ path_of (seg :: segs)) = "/" <->
   Os.exists_ w ("./.." ++ path_of (seg :: segs)) = false) /\
  SimpleHTTPRequestHandler.translate_path (Os.directory w)
    ("/.." ++ path_of (seg :: segs))
    = Os.directory w ++ path_of (seg :: segs).
Proof.
  intros Hne Hend H Hasset.
  assert (Hchars : Forall (fun s => Str.all plain_char s = true)
                     (".." :: seg :: segs)).
  { constructor; [reflexivity | now apply plain_path_all]. }
  change ("/.." ++ path_of (seg :: segs)) with (path_of (".." :: seg :: segs))
    in *.
  change ("./.." ++ path_of (seg :: segs))
    with ("." ++ path_of (".." :: seg :: segs)).
  assert (Hend' : Str.endswith (path_of (".." :: seg :: segs)) "/" = false).
  { exact (endswith_plain_path "/.." seg segs H). }
  assert (Hp : SPAHandler.request_path (path_of (".." :: seg :: segs))
               = Some (path_of (".." :: seg :: segs))).
  { apply request_path_whole.
    - apply startswith_same.
    - unfold Str.startswith. cbn -[ascii_dec].
      destruct (ascii_dec "/" "/"); [|reflexivity].
      now destruct (ascii_dec "/" ".").
    - now apply path_chars_word.
    - apply path_chars_free; auto; discriminate.
    - apply path_chars_free; auto; discriminate.
    - apply path_chars_free; auto; discriminate. }
  assert (Hroot : String.eqb (path_of (".." :: seg :: segs)) "/" = false)
    by reflexivity.
  split; [|split].
  - now rewrite (existence_checks_cases w _ _ Hp), Hasset, Hroot.
  - rewrite (effective_path_cases w _ _ Hp), Hasset, Hroot. cbn [orb].
    destruct (Os.exists_ w _); split; try reflexivity; discriminate.
  - unfold SimpleHTTPRequestHandler.translate_path.
    rewrite (split1_absent "?") by (apply path_chars_free; auto; discriminate).
    cbn [fst].
    rewrite (split1_absent "#") by (apply path_chars_free; auto; discriminate).
    cbn [fst].
    rewrite (rstrip_word _ (path_chars_word _ Hchars)), Hend'.
    rewrite unquote_no_percent by (apply path_chars_free; auto; discriminate).
    rewrite (normpath_dotdot _ _ H).
    now apply translate_plain_words.
Qed.

Lemma dotdot_checked_outside_served_inside_witness :
  SimpleHTTPRequestHandler.translate_path "/srv/app"
    ("/.." ++ path_of ["etc"; "passwd"]) = "/srv/app/etc/passwd".
Proof.
  apply (dotdot_checked_outside_served_inside
           (ip := UrlParse.unchecked_ip_literal) Worlds.site "etc" ["passwd"]).
  - discriminate.
  - reflexivity.
  - repeat constructor.
  - reflexivity.
Defined.
